(** * great_expectations: the pandas datasource and the checkpoint commands

    A shallow embedding of
    - [great_expectations/datasource/pandas_datasource.py] (module [Pandas]);
    - [great_expectations/cli/checkpoint.py] (module [Checkpoint]).

    Python dictionaries are finite maps from strings ([gmap string pyval]),
    exceptions are results of an error monad threaded through a world, and
    every library the code delegates to (pandas, boto3, uuid, the data
    context, the command-line toolkit) is an oracle of the environment. *)

From Stdlib Require Import ZArith Lia.
From stdpp Require Import base strings pretty gmap list.

Set Warnings "-register-all".

(** ** Python values *)

(** The values that travel in batch kwargs and configurations.  Frames,
    series and other objects are references ([N] handles): the code never
    looks inside them, it hands them to pandas. *)
Inductive pyval : Type :=
  | VNone
  | VBool (b : bool)
  | VInt (z : Z)
  | VStr (s : string)
  | VDict (d : gmap string pyval)
  | VDataFrame (h : N)
  | VSeries (h : N)
  | VObject (h : N).

Abbreviation dict := (gmap string pyval).

(** A Python exception raised by a library or by the interpreter: the names
    of its class and of the classes it inherits from, and its message. *)
Record pyexn := PyExn { exn_mro : list string; exn_msg : string }.

(** [isinstance(e, cls)] *)
Definition isinstance (e : pyexn) (cls : string) : bool :=
  bool_decide (cls ∈ exn_mro e).

(** [isinstance(e, (c1, ..., cn))], what an [except (c1, ..., cn)] tests *)
Definition isinstance_any (e : pyexn) (classes : list string) : bool :=
  existsb (isinstance e) classes.

Definition AttributeError (msg : string) : pyexn :=
  PyExn ["AttributeError"; "Exception"; "BaseException"] msg.
Definition TypeError (msg : string) : pyexn :=
  PyExn ["TypeError"; "Exception"; "BaseException"] msg.
Definition ValueError (msg : string) : pyexn :=
  PyExn ["ValueError"; "Exception"; "BaseException"] msg.
Definition IndexError (msg : string) : pyexn :=
  PyExn ["IndexError"; "LookupError"; "Exception"; "BaseException"] msg.
Definition IsADirectoryError (msg : string) : pyexn :=
  PyExn ["IsADirectoryError"; "OSError"; "Exception"; "BaseException"] msg.

(** ** A state and error monad

    [M W E A]: a computation over a world [W] that returns an [A] or raises
    an [E]; the world keeps what happened before the exception. *)
Inductive outcome (E A : Type) : Type :=
  | Return (a : A)
  | Raise (e : E).
Arguments Return {E A} a.
Arguments Raise {E A} e.

Definition M (W E A : Type) : Type := W → outcome E A * W.

Definition ret {W E A} (a : A) : M W E A := λ w, (Return a, w).
Definition raise {W E A} (e : E) : M W E A := λ w, (Raise e, w).
Definition bind {W E A B} (m : M W E A) (k : A → M W E B) : M W E B :=
  λ w, match m w with
       | (Return a, w') => k a w'
       | (Raise e, w') => (Raise e, w')
       end.
(** a pure result that may be an exception *)
Definition lift {W E A} (r : outcome E A) : M W E A := λ w, (r, w).
(** the world after [f] *)
Definition modify {W E} (f : W → W) : M W E unit := λ w, (Return tt, f w).
Definition get_world {W E} : M W E W := λ w, (Return w, w).

Declare Scope py_scope.
Delimit Scope py_scope with py.
Notation "x <- c1 ;; c2" := (bind c1 (λ x, c2))
  (at level 100, c1 at next level, right associativity) : py_scope.
Notation "c1 ;; c2" := (bind c1 (λ _, c2))
  (at level 100, right associativity) : py_scope.
Open Scope py_scope.

(** ** Strings: [str.endswith] *)

Fixpoint string_drop (n : nat) (s : string) : string :=
  match n, s with
  | O, _ => s
  | S n', String _ s' => string_drop n' s'
  | S _, EmptyString => EmptyString
  end.

(** [s.endswith(suffix)]: the last [len(suffix)] characters of [s] are
    [suffix]. *)
Definition endswith (s suffix : string) : bool :=
  (String.length suffix <=? String.length s)%nat
  && String.eqb (string_drop (String.length s - String.length suffix) s) suffix.

(** ** The pandas datasource *)

Module Pandas.

(** [BatchKwargsError(message, batch_kwargs)] is raised by the datasource
    itself; every other exception comes out of a library and propagates. *)
Inductive ds_exn : Type :=
  | BatchKwargsError (msg : string) (batch_kwargs : dict)
  | Propagated (e : pyexn).

(** What a pandas reader is called on: the value of the ["path"] key, or a
    [StringIO] over the decoded body of an object-storage object. *)
Inductive reader_input : Type :=
  | InPath (path : pyval)
  | InBuffer (text : string).

(** The calls that leave the process, in the order they are made. *)
Inductive call : Type :=
  | CallBoto3Client (options : dict)
  | CallGetObject (bucket key : string)
  | CallReadBody (s3_object : N)
  | CallReader (method : string) (input : reader_input) (kwargs : dict).

(** The libraries behind the datasource. *)
Record environment := {
  (** [datetime.datetime.utcnow().strftime("%Y%m%dT%H%M%S.%fZ")] *)
  utcnow : string;
  (** [str(uuid.uuid1())] *)
  uuid1 : string;
  (** [hasattr(pd, name)] and [callable(getattr(pd, name))] *)
  pd_hasattr : string → bool;
  pd_callable : string → bool;
  (** [getattr(pd, name)(input, **kwargs)] *)
  pd_call : string → reader_input → dict → outcome pyexn pyval;
  (** [import boto3] and [boto3.client("s3", **options)] *)
  import_boto3 : outcome pyexn unit;
  boto3_client : dict → outcome pyexn N;
  (** [S3Url(raw_url)], its [bucket] and its [key] (from [.util]) *)
  S3Url : pyval → outcome pyexn (string * string);
  (** [s3.get_object(Bucket=bucket, Key=key)] *)
  s3_get_object : N → string → string → outcome pyexn N;
  (** [s3_object["Body"].read().decode(s3_object.get("ContentEncoding", "utf-8"))] *)
  s3_read_body : N → outcome pyexn string;
  (** [df.memory_usage().sum()], in bytes *)
  memory_usage_sum : pyval → outcome pyexn Z;
  (** [hash_pandas_dataframe(df)] (from [.util]) *)
  hash_pandas_dataframe : pyval → outcome pyexn string;
  (** [Datasource.process_batch_parameters(dataset_options=...)], the method
      of the base class *)
  super_process_batch_parameters : pyval → outcome pyexn dict;
  (** [classConfigSchema.dump] of the [ClassConfig] built from [data_asset_type] *)
  class_config_dump : pyval → outcome pyexn pyval;
}.

(** [HASH_THRESHOLD = 1e9]: the float is an integer, and the memory usage it
    is compared with is an integer number of bytes, so the comparison is the
    one of [Z]. *)
Definition HASH_THRESHOLD : Z := 1000000000.

Record PandasDatasource := {
  name : string;
  _data_context : pyval;
  _boto3_options : pyval;
  _reader_method : pyval;
  _reader_options : pyval;
  _limit : pyval;
}.

(** [great_expectations.core.batch.Batch] *)
Record Batch := {
  datasource_name : string;
  batch_kwargs : dict;
  data : pyval;
  batch_parameters : pyval;
  batch_markers : dict;
  data_context : pyval;
}.

(** The object [_get_reader_fn] returns: [getattr(pd, rf_name)], wrapped in
    [functools.partial(..., **rf_keywords)] when [rf_keywords] is not empty. *)
Record reader_fn := { rf_name : string; rf_keywords : dict }.

Abbreviation DS := (M (list call) ds_exn).

(** an exception of a library propagates *)
Definition propagated {A} (r : outcome pyexn A) : outcome ds_exn A :=
  match r with Return a => Return a | Raise e => Raise (Propagated e) end.
Definition propagate {A} (r : outcome pyexn A) : DS A := lift (propagated r).

Definition log (c : call) : DS unit := modify (λ w, w ++ [c]).

Definition is_None (v : pyval) : bool :=
  match v with VNone => true | _ => false end.

(** [isinstance(v, (pd.DataFrame, pd.Series))] *)
Definition is_frame (v : pyval) : bool :=
  match v with VDataFrame _ | VSeries _ => true | _ => false end.

(** [dict.get(key)], [None] when the key is missing *)
Definition dict_get (d : dict) (key : string) : pyval := default VNone (d !! key).

(** [bool(v)]; the truth value of a frame or a series is a [ValueError]. *)
Definition truth (v : pyval) : outcome pyexn bool :=
  match v with
  | VNone => Return false
  | VBool b => Return b
  | VInt z => Return (negb (z =? 0)%Z)
  | VStr s => Return (negb (String.eqb s ""))
  | VDict d => Return (negb (Nat.eqb (size d) 0))
  | VDataFrame _ | VSeries _ =>
      Raise (ValueError "The truth value of a DataFrame is ambiguous.")
  | VObject _ => Return true
  end.

(** The dictionary [guess_reader_method_from_path] returns. *)
Definition guess (reader_method : string) (reader_options : option dict) : dict :=
  match reader_options with
  | None => {[ "reader_method" := VStr reader_method ]}
  | Some o => <[ "reader_options" := VDict o ]> {[ "reader_method" := VStr reader_method ]}
  end.

(** The [if]/[elif] chain of [guess_reader_method_from_path], on a string. *)
Definition guess_reader_method_from_path_str (path : string) : outcome ds_exn dict :=
  if endswith path ".csv" || endswith path ".tsv" then
    Return (guess "read_csv" None)
  else if endswith path ".parquet" then
    Return (guess "read_parquet" None)
  else if endswith path ".xlsx" || endswith path ".xls" then
    Return (guess "read_excel" None)
  else if endswith path ".json" then
    Return (guess "read_json" None)
  else if endswith path ".pkl" then
    Return (guess "read_pickle" None)
  else if endswith path ".csv.gz" || endswith path ".csv.gz" then
    Return (guess "read_csv" (Some {[ "compression" := VStr "gzip" ]}))
  else
    Raise (BatchKwargsError
             ("Unable to determine reader method from path: " +:+ path)
             {[ "path" := VStr path ]}).

(** The table of suffixes of the specification: which reader, and which
    reader options, each one stands for. *)
Definition reader_table : list (string * dict) :=
  [ (".csv", guess "read_csv" None);
    (".tsv", guess "read_csv" None);
    (".parquet", guess "read_parquet" None);
    (".xlsx", guess "read_excel" None);
    (".xls", guess "read_excel" None);
    (".json", guess "read_json" None);
    (".pkl", guess "read_pickle" None);
    (".csv.gz", guess "read_csv" (Some {[ "compression" := VStr "gzip" ]})) ].

(** [PandasDatasource.guess_reader_method_from_path(path)]; a [path] that
    is not a string has no [endswith].  This is what Python does for [None],
    a boolean, an integer and a dictionary; a frame, a series or another
    object is taken to have no [endswith] either. *)
Definition guess_reader_method_from_path (path : pyval) : outcome ds_exn dict :=
  match path with
  | VStr s => guess_reader_method_from_path_str s
  | _ => Raise (Propagated (AttributeError "object has no attribute 'endswith'"))
  end.

Section datasource.

Variable env : environment.

(** [self._get_reader_fn(reader_method, path)] *)
Definition _get_reader_fn (reader_method path : pyval) : outcome ds_exn reader_fn :=
  if is_None reader_method && is_None path then
    Raise (BatchKwargsError
             "Unable to determine pandas reader function without reader_method or path."
             {[ "reader_method" := reader_method ]})
  else
    let guessed :=
      if is_None reader_method then
        match guess_reader_method_from_path path with
        | Return path_guess =>
            Return (dict_get path_guess "reader_method",
                    dict_get path_guess "reader_options")
        | Raise e => Raise e
        end
      else Return (reader_method, VNone) in
    match guessed with
    | Raise e => Raise e
    | Return (reader_method, reader_options) =>
        match reader_method with
        | VStr m =>
            if pd_hasattr env m then
              match reader_options with
              | VDict o =>
                  if Nat.eqb (size o) 0 then
                    Return {| rf_name := m; rf_keywords := ∅ |}
                  else if pd_callable env m then
                    Return {| rf_name := m; rf_keywords := o |}
                  else
                    Raise (Propagated (TypeError "the first argument must be callable"))
              | _ => Return {| rf_name := m; rf_keywords := ∅ |}
              end
            else
              Raise (BatchKwargsError
                       ("Unable to find reader_method " +:+ m +:+ " in pandas.")
                       {[ "reader_method" := reader_method ]})
        | _ => Raise (Propagated (TypeError "attribute name must be string"))
        end
    end.

(** [reader_fn(input, **reader_options)]: the keywords of the call win over
    the ones [functools.partial] holds.  Reader options that are not a
    dictionary are refused: this is what Python does for [None], a boolean,
    an integer and a string; a frame, a series or another object is taken
    not to be a mapping either. *)
Definition call_reader (fn : reader_fn) (input : reader_input)
    (reader_options : pyval) : DS pyval :=
  match reader_options with
  | VDict kwargs =>
      if pd_callable env (rf_name fn) then
        log (CallReader (rf_name fn) input (kwargs ∪ rf_keywords fn)) ;;
        propagate (pd_call env (rf_name fn) input (kwargs ∪ rf_keywords fn))
      else
        raise (Propagated (TypeError "object is not callable"))
  | _ => raise (Propagated (TypeError "argument after ** must be a mapping"))
  end.

(** The [try: import boto3; s3 = boto3.client("s3", ...)] of [get_batch]:
    an [ImportError] becomes a [BatchKwargsError], anything else propagates. *)
Definition load_boto3_client (self : PandasDatasource) (batch_kwargs : dict) : DS N :=
  let on_error (e : pyexn) : ds_exn :=
    if isinstance e "ImportError" then
      BatchKwargsError "Unable to load boto3 client to read s3 asset." batch_kwargs
    else Propagated e in
  match import_boto3 env with
  | Raise e => raise (on_error e)
  | Return _ =>
      match _boto3_options self with
      | VDict options =>
          log (CallBoto3Client options) ;;
          match boto3_client env options with
          | Return s3 => ret s3
          | Raise e => raise (on_error e)
          end
      | _ => raise (on_error (TypeError "argument after ** must be a mapping"))
      end
  end.

Definition invalid_batch_kwargs : string :=
  "Invalid batch_kwargs: path, s3, or df is required for a PandasDatasource".

(** The three branches of [get_batch]: the frame and the batch kwargs the
    batch will carry. *)
Definition load_data (self : PandasDatasource) (batch_kwargs : dict)
    (reader_options : pyval) : DS (pyval * dict) :=
  match batch_kwargs !! "path" with
  | Some path =>
      let reader_method := dict_get batch_kwargs "reader_method" in
      reader_fn <- lift (_get_reader_fn reader_method path) ;;
      df <- call_reader reader_fn (InPath path) reader_options ;;
      ret (df, batch_kwargs)
  | None =>
  match batch_kwargs !! "s3" with
  | Some raw_url =>
      s3 <- load_boto3_client self batch_kwargs ;;
      let reader_method := dict_get batch_kwargs "reader_method" in
      url <- propagate (S3Url env raw_url) ;;
      log (CallGetObject url.1 url.2) ;;
      s3_object <- propagate (s3_get_object env s3 url.1 url.2) ;;
      reader_fn <- lift (_get_reader_fn reader_method (VStr url.2)) ;;
      log (CallReadBody s3_object) ;;
      text <- propagate (s3_read_body env s3_object) ;;
      df <- call_reader reader_fn (InBuffer text) reader_options ;;
      ret (df, batch_kwargs)
  | None =>
  match batch_kwargs !! "dataset" with
  | Some df =>
      if is_frame df then
        let batch_kwargs := filter (λ kv, kv.1 ≠ "dataset") batch_kwargs in
        let batch_kwargs := <[ "PandasInMemoryDF" := VBool true ]> batch_kwargs in
        let batch_kwargs := <[ "ge_batch_id" := VStr (uuid1 env) ]> batch_kwargs in
        ret (df, batch_kwargs)
      else raise (BatchKwargsError invalid_batch_kwargs batch_kwargs)
  | None => raise (BatchKwargsError invalid_batch_kwargs batch_kwargs)
  end end end.

(** [self.get_batch(batch_kwargs, batch_parameters)] *)
Definition get_batch (self : PandasDatasource) (batch_kwargs : dict)
    (batch_parameters : pyval) : DS Batch :=
  let reader_options := default (VDict ∅) (batch_kwargs !! "reader_options") in
  let batch_markers : dict := {[ "ge_load_time" := VStr (utcnow env) ]} in
  loaded <- load_data self batch_kwargs reader_options ;;
  let df := loaded.1 in
  let batch_kwargs := loaded.2 in
  usage <- propagate (memory_usage_sum env df) ;;
  batch_markers <-
    (if (usage <? HASH_THRESHOLD)%Z then
       fingerprint <- propagate (hash_pandas_dataframe env df) ;;
       ret (<[ "pandas_data_fingerprint" := VStr fingerprint ]> batch_markers)
     else ret batch_markers) ;;
  ret {| datasource_name := name self;
         batch_kwargs := batch_kwargs;
         data := df;
         batch_parameters := batch_parameters;
         batch_markers := batch_markers;
         data_context := _data_context self |}.

(** [if not batch_kwargs.get("reader_options"):
        batch_kwargs["reader_options"] = dict()] *)
Definition ensure_reader_options (batch_kwargs : dict) : DS dict :=
  present <- propagate (truth (dict_get batch_kwargs "reader_options")) ;;
  if present then ret batch_kwargs
  else ret (<[ "reader_options" := VDict ∅ ]> batch_kwargs).

(** [batch_kwargs["reader_options"].update(other)]: the keys of [other]
    replace the ones already there. *)
Definition update_reader_options (batch_kwargs : dict) (other : pyval) : DS dict :=
  batch_kwargs <- ensure_reader_options batch_kwargs ;;
  match dict_get batch_kwargs "reader_options" with
  | VDict d =>
      match other with
      | VDict o => ret (<[ "reader_options" := VDict (o ∪ d) ]> batch_kwargs)
      | VStr _ =>
          raise (Propagated (ValueError "dictionary update sequence element has length 1"))
      | _ => raise (Propagated (TypeError "object is not iterable"))
      end
  | _ => raise (Propagated (AttributeError "object has no attribute 'update'"))
  end.

(** [batch_kwargs["reader_options"]["nrows"] = limit] *)
Definition set_nrows (batch_kwargs : dict) (limit : pyval) : DS dict :=
  batch_kwargs <- ensure_reader_options batch_kwargs ;;
  match dict_get batch_kwargs "reader_options" with
  | VDict d => ret (<[ "reader_options" := VDict (<[ "nrows" := limit ]> d) ]> batch_kwargs)
  | _ => raise (Propagated (TypeError "object does not support item assignment"))
  end.

(** [self.process_batch_parameters(reader_method, reader_options, limit,
    dataset_options)] *)
Definition process_batch_parameters (self : PandasDatasource)
    (reader_method reader_options limit dataset_options : pyval) : DS dict :=
  batch_kwargs <- propagate (super_process_batch_parameters env dataset_options) ;;
  configured <- propagate (truth (_reader_options self)) ;;
  batch_kwargs <-
    (if configured then update_reader_options batch_kwargs (_reader_options self)
     else ret batch_kwargs) ;;
  given <- propagate (truth reader_options) ;;
  batch_kwargs <-
    (if given then update_reader_options batch_kwargs reader_options
     else ret batch_kwargs) ;;
  limited <- propagate (truth (_limit self)) ;;
  batch_kwargs <-
    (if limited then set_nrows batch_kwargs (_limit self) else ret batch_kwargs) ;;
  batch_kwargs <-
    (if is_None limit then ret batch_kwargs else set_nrows batch_kwargs limit) ;;
  has_method <- propagate (truth (_reader_method self)) ;;
  let batch_kwargs :=
    if has_method then <[ "reader_method" := _reader_method self ]> batch_kwargs
    else batch_kwargs in
  let batch_kwargs :=
    if is_None reader_method then batch_kwargs
    else <[ "reader_method" := reader_method ]> batch_kwargs in
  ret batch_kwargs.

(** [configuration.update(options)] under [isinstance(options, dict)], the
    [ValueError] otherwise; nothing when [options is None]. *)
Definition update_configuration (configuration : dict) (options : pyval) : DS dict :=
  match options with
  | VNone => ret configuration
  | VDict o => ret (o ∪ configuration)
  | _ =>
      raise (Propagated (ValueError
        "boto3_options must be a dictionary of key-value pairs to pass to boto3 upon initialization."))
  end.

(** [PandasDatasource.build_configuration(data_asset_type,
    batch_kwargs_generators, boto3_options, reader_method, reader_options,
    limit, ...kwargs)] *)
Definition build_configuration
    (data_asset_type batch_kwargs_generators boto3_options
     reader_method reader_options limit : pyval) (kwargs : dict) : DS dict :=
  data_asset_type <-
    (if is_None data_asset_type then
       ret (VDict (<[ "module_name" := VStr "great_expectations.dataset" ]>
                     {[ "class_name" := VStr "PandasDataset" ]}))
     else propagate (class_config_dump env data_asset_type)) ;;
  let configuration := kwargs in
  let configuration := <[ "data_asset_type" := data_asset_type ]> configuration in
  with_generators <- propagate (truth batch_kwargs_generators) ;;
  let configuration :=
    if with_generators
    then <[ "batch_kwargs_generators" := batch_kwargs_generators ]> configuration
    else configuration in
  configuration <- update_configuration configuration boto3_options ;;
  configuration <- update_configuration configuration reader_options ;;
  let configuration :=
    if is_None reader_method then configuration
    else <[ "reader_method" := reader_method ]> configuration in
  let configuration :=
    if is_None limit then configuration
    else <[ "limit" := limit ]> configuration in
  ret configuration.

(** [PandasDatasource.__init__].  The constructor of the base class and
    [_build_generators] are defined elsewhere: they are taken to succeed,
    and to keep [name] and [data_context]; a configuration key that is also
    given to the base class by name ([super_keywords] below), which Python
    refuses as a keyword given twice, is not modelled. *)
Definition __init__ (name : string)
    (data_context data_asset_type batch_kwargs_generators boto3_options
     reader_method reader_options limit : pyval) (kwargs : dict)
    : DS PandasDatasource :=
  configuration_with_defaults <-
    build_configuration data_asset_type batch_kwargs_generators boto3_options
      reader_method reader_options limit kwargs ;;
  let configuration_with_defaults := delete "data_asset_type" configuration_with_defaults in
  let configuration_with_defaults :=
    delete "batch_kwargs_generators" configuration_with_defaults in
  ret {| name := name;
         _data_context := data_context;
         _boto3_options :=
           default (VDict ∅) (configuration_with_defaults !! "boto3_options");
         _reader_method := dict_get configuration_with_defaults "reader_method";
         _reader_options := dict_get configuration_with_defaults "reader_options";
         _limit := dict_get configuration_with_defaults "limit" |}.

End datasource.

(** The reader options that batch kwargs carry, none when the key is
    missing. *)
Definition reader_options_of (batch_kwargs : dict) : dict :=
  match batch_kwargs !! "reader_options" with
  | Some (VDict d) => d
  | _ => ∅
  end.

(** Batch kwargs whose ["reader_options"], when there, are a dictionary. *)
Definition reader_options_ok (batch_kwargs : dict) : Prop :=
  match batch_kwargs !! "reader_options" with
  | Some (VDict _) | None => True
  | _ => False
  end.

(** An optional dictionary argument: [None] or a dictionary, and the
    key-value pairs it brings. *)
Definition is_options (v : pyval) : Prop := v = VNone ∨ ∃ d, v = VDict d.

Definition options_of (v : pyval) : dict :=
  match v with VDict d => d | _ => ∅ end.



(** The keywords that cannot be among the extra keyword arguments of
    [__init__]: Python binds them to its parameters, and [cls] to the class
    in [build_configuration]. *)
Definition bound_keywords : list string :=
  ["self"; "cls"; "name"; "data_context"; "data_asset_type";
   "batch_kwargs_generators"; "boto3_options"; "reader_method"; "reader_options";
   "limit"].

(** The arguments [__init__] gives to the constructor of the base class
    besides the configuration: a configuration key of one of these names
    would be given twice. *)
Definition super_keywords : list string := ["self"; "name"; "data_context"].


(** An environment to run examples in: pandas has its readers, every frame
    takes 1024 bytes, there is no boto3. *)
Definition sample_env : environment := {|
  utcnow := "20200401T120000.000000Z";
  uuid1 := "5f0c4a3e-7400-11ea-bc55-0242ac130003";
  pd_hasattr := λ name, bool_decide (name ∈ ["read_csv"; "read_parquet"; "read_excel";
                                            "read_json"; "read_pickle"; "__version__"]);
  pd_callable := λ name, negb (String.eqb name "__version__");
  pd_call := λ _ _ _, Return (VDataFrame 7);
  import_boto3 := Raise (PyExn ["ModuleNotFoundError"; "ImportError"; "Exception"]
                           "No module named 'boto3'");
  boto3_client := λ _, Return 0%N;
  S3Url := λ _, Return ("bucket", "key");
  s3_get_object := λ _ _ _, Return 0%N;
  s3_read_body := λ _, Return "";
  memory_usage_sum := λ _, Return 1024%Z;
  hash_pandas_dataframe := λ _, Return "0f3a";
  super_process_batch_parameters := λ _, Return ∅;
  class_config_dump := λ v, Return v;
|}.

(** The same environment with boto3: every url is the object [key] of
    [bucket], whose body is a line of text. *)
Definition sample_env_s3 : environment := {|
  utcnow := "20200401T120000.000000Z";
  uuid1 := "5f0c4a3e-7400-11ea-bc55-0242ac130003";
  pd_hasattr := pd_hasattr sample_env;
  pd_callable := pd_callable sample_env;
  pd_call := λ _ _ _, Return (VDataFrame 7);
  import_boto3 := Return tt;
  boto3_client := λ _, Return 1%N;
  S3Url := λ _, Return ("bucket", "key");
  s3_get_object := λ _ _ _, Return 2%N;
  s3_read_body := λ _, Return "a,b";
  memory_usage_sum := λ _, Return 1024%Z;
  hash_pandas_dataframe := λ _, Return "0f3a";
  super_process_batch_parameters := λ _, Return ∅;
  class_config_dump := λ v, Return v;
|}.

Definition sample_datasource : PandasDatasource := {|
  name := "pandas";
  _data_context := VNone;
  _boto3_options := VDict ∅;
  _reader_method := VNone;
  _reader_options := VNone;
  _limit := VNone;
|}.

End Pandas.

(** ** The checkpoint commands *)

Module Checkpoint.

(** [sys.exit(code)] raises [SystemExit], which no [except] clause of the
    commands catches; any other exception is an [Error]. *)
Inductive signal : Type :=
  | SystemExit (code : Z)
  | Error (e : pyexn).

(** A checkpoint file: a validation operator and a list of batches, each one
    batch kwargs and the names of its suites. *)
Record batch_entry := {
  batch_kwargs : dict;
  expectation_suite_names : list string;
}.

Record checkpoint_config := {
  validation_operator_name : string;
  batches : list batch_entry;
}.

Record ExpectationSuite := { expectation_suite_name : string }.

(** What [context.run_validation_operator] returns, read at ["success"]. *)
Record validation_result := { success : bool }.

(** The [DataContext] the commands delegate to; a loaded batch is a
    reference. *)
Record DataContext := {
  root_directory : string;
  CHECKPOINTS_DIR : string;
  GE_UNCOMMITTED_DIR : string;
  list_checkpoints : list string;
  run_validation_operator : string → list N → outcome pyexn validation_result;
}.

Record Datasource := { datasource_name : string }.

(** What the commands print, send and ask of the context, in order. *)
Inductive event : Type :=
  | Message (text : string)
  | MessageList (items : list string) (list_intro_string : string)
  | UsageMessage (usage_event : string) (succeeded : bool)
  | LoadBatch (suite : ExpectationSuite) (batch_kwargs : dict)
  | RunValidationOperator (operator : string) (assets_to_validate : list N).

Inductive node : Type :=
  | File (content : string)
  | Directory.

(** The file system, keyed by absolute path, and the trace of events. *)
Record world := {
  files : gmap string node;
  trace : list event;
}.

(** The toolkit, the template files and the interpreter.  The loaders of
    the toolkit handle their own errors: they return or end the process. *)
Record environment := {
  load_data_context_with_error_handling : pyval → outcome signal DataContext;
  load_expectation_suite : DataContext → string → string → outcome signal ExpectationSuite;
  load_checkpoint : DataContext → string → string → outcome signal checkpoint_config;
  load_batch : DataContext → ExpectationSuite → dict → outcome pyexn N;
  select_datasource : DataContext → pyval → option Datasource;
  get_batch_kwargs : DataContext → string → outcome signal dict;
  (** [yaml.load] of [checkpoint_template.yml] and [yaml.dump] *)
  load_checkpoint_yml_template : outcome pyexn checkpoint_config;
  yaml_dump : checkpoint_config → string;
  (** the text of [checkpoint_script_template.py], [str.format] with two
      arguments, and [lint_code] *)
  load_script_template : outcome pyexn string;
  format2 : string → string → string → outcome pyexn string;
  lint_code : string → outcome pyexn string;
  (** [os.path.abspath] *)
  abspath : string → string;
  (** [repr] of batch kwargs, as an f-string prints them *)
  repr : dict → string;
  (** whether [from sqlalchemy.exc import SQLAlchemyError] succeeds *)
  sqlalchemy_installed : bool;
}.

Abbreviation CLI := (M world signal).

Definition emit (e : event) : CLI unit :=
  modify (λ w, {| files := files w; trace := trace w ++ [e] |}).

Definition cli_message (text : string) : CLI unit := emit (Message text).
Definition cli_message_list (items : list string) (intro : string) : CLI unit :=
  emit (MessageList items intro).
Definition send_usage_message (usage_event : string) (succeeded : bool) : CLI unit :=
  emit (UsageMessage usage_event succeeded).
Definition sys_exit {A} (code : Z) : CLI A := raise (SystemExit code).

(** Modelled from the spec: [toolkit.exit_with_failure_message_and_stats],
    whose source is missing.  Errors are "formatted as a user message, and
    terminate the process with a non-zero exit code", and the exit code is
    "1 on failure"; the usage statistics are the ones its name announces. *)
Definition exit_with_failure_message_and_stats {A}
    (context : DataContext) (usage_event message : string) : CLI A :=
  cli_message message ;;
  send_usage_message usage_event false ;;
  sys_exit 1.

(** [posixpath.join(a, b)] *)
Definition path_join (a b : string) : string :=
  if String.prefix "/" b then b
  else if String.eqb a "" || endswith a "/" then a +:+ b
  else a +:+ "/" +:+ b.

(** [os.path.isfile(path)] *)
Definition isfile (env : environment) (path : string) : CLI bool :=
  w <- get_world ;;
  ret match files w !! abspath env path with
      | Some (File _) => true
      | _ => false
      end.

(** [os.makedirs(path, exist_ok=True)]; permissions are not modelled. *)
Definition makedirs (env : environment) (path : string) : CLI unit :=
  w <- get_world ;;
  match files w !! abspath env path with
  | Some (File _) =>
      raise (Error (PyExn ["FileExistsError"; "OSError"; "Exception"; "BaseException"] path))
  | _ =>
      modify (λ w, {| files := <[ abspath env path := Directory ]> (files w);
                      trace := trace w |})
  end.

(** [with open(path, "w") as f: f.write(content)]; permissions and missing
    parent directories are not modelled. *)
Definition write_file (env : environment) (path content : string) : CLI unit :=
  w <- get_world ;;
  match files w !! abspath env path with
  | Some Directory => raise (Error (IsADirectoryError path))
  | _ =>
      modify (λ w, {| files := <[ abspath env path := File content ]> (files w);
                      trace := trace w |})
  end.

Definition from_toolkit {A} (r : outcome signal A) : CLI A := lift r.
Definition from_library {A} (r : outcome pyexn A) : CLI A :=
  lift match r with Return a => Return a | Raise e => Raise (Error e) end.

(** The line break of the messages. *)
Definition nl : string := String (Ascii.ascii_of_nat 10) "".

Section commands.

Variable env : environment.

(** The messages of the commands, as their f-strings build them. *)
Definition checkpoint_exists_message (checkpoint : string) : string :=
  "A checkpoint named `" +:+ checkpoint +:+
  "` already exists. Please choose a new name.".

Definition checkpoint_added_message (checkpoint checkpoint_file : string) : string :=
  "<green>A checkpoint named `" +:+ checkpoint +:+
  "` was added to your project!</green>" +:+ nl +:+
  "  - To edit this checkpoint edit the checkpoint file: " +:+ checkpoint_file +:+ nl +:+
  "  - To run this checkpoint run `great_expectations checkpoint run " +:+
  checkpoint +:+ "`".

Definition no_checkpoints_message : string :=
  "No checkpoints found." +:+ nl +:+
  "  - Use the command `great_expectations checkpoint new` to create one.".

Definition no_suites_message (kwargs : dict) (checkpoint_file : string) : string :=
  "<red>A batch has no suites associated with it. At least one suite is required." +:+
  nl +:+ "  - Batch: " +:+ repr env kwargs +:+ nl +:+
  "  - Please add at least one suite to your checkpoint file: " +:+
  checkpoint_file +:+ "</red>".

Definition load_problem_message (kwargs : dict) (e : pyexn) (checkpoint_file : string)
    : string :=
  "<red>There was a problem loading a batch:" +:+ nl +:+
  "  - Batch: " +:+ repr env kwargs +:+ nl +:+
  "  - " +:+ exn_msg e +:+ nl +:+
  "  - Please verify these batch kwargs in the checkpoint file: `" +:+
  checkpoint_file +:+ "`</red>".

Definition script_exists_message (script_name script_path : string) : string :=
  "<red>Warning! A script named " +:+ script_name +:+
  " already exists and this command will not overwrite it.</red>" +:+ nl +:+
  "  - Existing file path: " +:+ script_path.

Definition script_created_message (checkpoint : string) : string :=
  "<green>A python script was created that runs the checkpoint named: `" +:+
  checkpoint +:+ "`</green>" +:+ nl +:+
  "  - The script is located in `great_expectations/uncommitted/run_" +:+
  checkpoint +:+ ".py`" +:+ nl +:+
  "  - The script can be run with `python great_expectations/uncommitted/run_" +:+
  checkpoint +:+ ".py`".

(** The class [SQLAlchemyError] names: [RuntimeError] when sqlalchemy
    cannot be imported. *)
Definition SQLAlchemyError : string :=
  if sqlalchemy_installed env then "SQLAlchemyError" else "RuntimeError".

Definition _verify_checkpoint_does_not_exist
    (context : DataContext) (checkpoint usage_event : string) : CLI unit :=
  if bool_decide (checkpoint ∈ list_checkpoints context) then
    exit_with_failure_message_and_stats context usage_event
      (checkpoint_exists_message checkpoint)
  else ret tt.

Definition _write_checkpoint_to_disk
    (context : DataContext) (checkpoint : checkpoint_config)
    (checkpoint_name : string) : CLI string :=
  let checkpoint_dir := path_join (root_directory context) (CHECKPOINTS_DIR context) in
  let checkpoint_file := path_join checkpoint_dir (checkpoint_name +:+ ".yml") in
  makedirs env checkpoint_dir ;;
  write_file env checkpoint_file (yaml_dump env checkpoint) ;;
  ret checkpoint_file.

Definition _load_checkpoint_yml_template : CLI checkpoint_config :=
  from_library (load_checkpoint_yml_template env).

(** [template["batches"][0]["batch_kwargs"] = dict(batch_kwargs)] and
    [template["batches"][0]["expectation_suite_names"] = [name]] *)
Definition fill_template (template : checkpoint_config) (kwargs : dict)
    (suite_name : string) : CLI checkpoint_config :=
  match batches template with
  | [] => raise (Error (IndexError "list index out of range"))
  | _ :: others =>
      ret {| validation_operator_name := validation_operator_name template;
             batches := {| batch_kwargs := kwargs;
                           expectation_suite_names := [suite_name] |} :: others |}
  end.

(** [great_expectations checkpoint new CHECKPOINT SUITE] *)
Definition checkpoint_new (checkpoint suite : string) (directory datasource : pyval)
    : CLI unit :=
  let suite_name := suite in
  let usage_event := "cli.checkpoint.new" in
  context <- from_toolkit (load_data_context_with_error_handling env directory) ;;
  _verify_checkpoint_does_not_exist context checkpoint usage_event ;;
  suite <- from_toolkit (load_expectation_suite env context suite_name usage_event) ;;
  match select_datasource env context datasource with
  | None =>
      send_usage_message usage_event false ;;
      sys_exit 1
  | Some datasource =>
      kwargs <- from_toolkit (get_batch_kwargs env context (datasource_name datasource)) ;;
      template <- _load_checkpoint_yml_template ;;
      template <- fill_template template kwargs (expectation_suite_name suite) ;;
      checkpoint_file <- _write_checkpoint_to_disk context template checkpoint ;;
      cli_message (checkpoint_added_message checkpoint checkpoint_file) ;;
      send_usage_message usage_event true
  end.

(** [great_expectations checkpoint list] *)
Definition checkpoint_list (directory : pyval) : CLI unit :=
  context <- from_toolkit (load_data_context_with_error_handling env directory) ;;
  let checkpoints := list_checkpoints context in
  match checkpoints with
  | [] =>
      cli_message no_checkpoints_message ;;
      send_usage_message "cli.checkpoint.list" true ;;
      sys_exit 0
  | _ =>
      let number_found := length checkpoints in
      let plural := if (1 <? number_found)%nat then "s" else "" in
      let message :=
        "Found " +:+ pretty number_found +:+ " checkpoint" +:+ plural +:+ "." in
      let pretty_list := map (λ cp, " - <cyan>" +:+ cp +:+ "</cyan>") checkpoints in
      cli_message_list pretty_list message ;;
      send_usage_message "cli.checkpoint.list" true
  end.

Definition _validate_at_least_one_suite_is_listed
    (context : DataContext) (batch : batch_entry) (checkpoint_file : string)
    : CLI unit :=
  let kwargs := batch_kwargs batch in
  let suites := expectation_suite_names batch in
  match suites with
  | [] =>
      exit_with_failure_message_and_stats context "cli.checkpoint.run"
        (no_suites_message kwargs checkpoint_file)
  | _ => ret tt
  end.

(** The classes the [except] clause around [toolkit.load_batch] names;
    [IOError] is [OSError]. *)
Definition caught_while_loading : list string :=
  ["FileNotFoundError"; SQLAlchemyError; "OSError"; "DataContextError"].

(** The [try: toolkit.load_batch(...)] of [checkpoint_run] and its
    [except (FileNotFoundError, SQLAlchemyError, IOError, DataContextError)] *)
Definition load_batch_or_exit (context : DataContext) (usage_event : string)
    (suite : ExpectationSuite) (kwargs : dict) (checkpoint_file : string) : CLI N :=
  emit (LoadBatch suite kwargs) ;;
  match load_batch env context suite kwargs with
  | Return batch => ret batch
  | Raise e =>
      if isinstance_any e caught_while_loading then
        exit_with_failure_message_and_stats context usage_event
          (load_problem_message kwargs e checkpoint_file)
      else raise (Error e)
  end.

(** [for suite_name in batch["expectation_suite_names"]: ...] *)
Fixpoint load_suites (context : DataContext) (usage_event : string)
    (kwargs : dict) (checkpoint_file : string) (suite_names : list string)
    (batches_to_validate : list N) : CLI (list N) :=
  match suite_names with
  | [] => ret batches_to_validate
  | suite_name :: suite_names =>
      suite <- from_toolkit (load_expectation_suite env context suite_name usage_event) ;;
      batch <- load_batch_or_exit context usage_event suite kwargs checkpoint_file ;;
      load_suites context usage_event kwargs checkpoint_file suite_names
        (batches_to_validate ++ [batch])
  end.

(** [for batch in checkpoint_config["batches"]: ...] *)
Fixpoint load_batches (context : DataContext) (usage_event : string)
    (checkpoint_file : string) (entries : list batch_entry)
    (batches_to_validate : list N) : CLI (list N) :=
  match entries with
  | [] => ret batches_to_validate
  | batch :: entries =>
      _validate_at_least_one_suite_is_listed context batch checkpoint_file ;;
      let kwargs := batch_kwargs batch in
      batches_to_validate <-
        load_suites context usage_event kwargs checkpoint_file
          (expectation_suite_names batch) batches_to_validate ;;
      load_batches context usage_event checkpoint_file entries batches_to_validate
  end.

Definition checkpoint_file_of (checkpoint : string) : string :=
  "great_expectations/checkpoints/" +:+ checkpoint +:+ ".yml".

(** [great_expectations checkpoint run CHECKPOINT] *)
Definition checkpoint_run (checkpoint : string) (directory : pyval) : CLI unit :=
  context <- from_toolkit (load_data_context_with_error_handling env directory) ;;
  let usage_event := "cli.checkpoint.run" in
  checkpoint_config <- from_toolkit (load_checkpoint env context checkpoint usage_event) ;;
  let checkpoint_file := checkpoint_file_of checkpoint in
  batches_to_validate <-
    load_batches context usage_event checkpoint_file (batches checkpoint_config) [] ;;
  emit (RunValidationOperator (validation_operator_name checkpoint_config)
          batches_to_validate) ;;
  results <-
    match run_validation_operator context
            (validation_operator_name checkpoint_config) batches_to_validate with
    | Return results => ret results
    | Raise e =>
        if isinstance e "DataContextError" then
          exit_with_failure_message_and_stats context usage_event
            ("<red>" +:+ exn_msg e +:+ "</red>")
        else raise (Error e)
    end ;;
  if negb (success results) then
    cli_message "Validation Failed!" ;;
    send_usage_message usage_event true ;;
    sys_exit 1
  else
    cli_message "Validation Succeeded!" ;;
    send_usage_message usage_event true ;;
    sys_exit 0.

Definition _load_script_template : CLI string :=
  from_library (load_script_template env).

Definition _write_checkpoint_script_to_disk
    (context_directory checkpoint_name script_path : string) : CLI unit :=
  let script_full_path := abspath env script_path in
  loaded <- _load_script_template ;;
  template <- from_library (format2 env loaded checkpoint_name context_directory) ;;
  linted_code <- from_library (lint_code env template) ;;
  write_file env script_full_path linted_code.

(** [os.path.join(context.root_directory, context.GE_UNCOMMITTED_DIR,
    f"run_{checkpoint}.py")] *)
Definition script_path_of (context : DataContext) (checkpoint : string) : string :=
  path_join (path_join (root_directory context) (GE_UNCOMMITTED_DIR context))
    ("run_" +:+ checkpoint +:+ ".py").

(** [great_expectations checkpoint script CHECKPOINT] *)
Definition checkpoint_script (checkpoint : string) (directory : pyval) : CLI unit :=
  context <- from_toolkit (load_data_context_with_error_handling env directory) ;;
  let usage_event := "cli.checkpoint.script" in
  _ <- from_toolkit (load_checkpoint env context checkpoint usage_event) ;;
  let script_name := "run_" +:+ checkpoint +:+ ".py" in
  let script_path := script_path_of context checkpoint in
  exists_already <- isfile env script_path ;;
  (if exists_already : bool then
     exit_with_failure_message_and_stats context usage_event
       (script_exists_message script_name script_path)
   else ret tt) ;;
  _write_checkpoint_script_to_disk (root_directory context) checkpoint script_path ;;
  cli_message (script_created_message checkpoint) ;;
  send_usage_message usage_event true.

(** The status the process ends with: the code of [sys.exit], 0 when the
    command returns, 1 when an exception propagates out of it. *)
Definition exit_status {A} (r : outcome signal A) : Z :=
  match r with
  | Return _ => 0
  | Raise (SystemExit code) => code
  | Raise (Error _) => 1
  end.

End commands.

(** Every pair of a batch entry and a suite name listed for that entry, in
    the order of the checkpoint file: the suite name and the batch kwargs. *)
Definition suite_pairs (entries : list batch_entry) : list (string * dict) :=
  flat_map (λ entry, map (λ suite_name, (suite_name, batch_kwargs entry))
                         (expectation_suite_names entry)) entries.

(** A batch that was loaded: the suite, the batch kwargs and the batch. *)
Record loaded_batch := {
  loaded_suite : ExpectationSuite;
  loaded_kwargs : dict;
  loaded_asset : N;
}.

(** The pair of a suite name and batch kwargs loads without error. *)
Definition loads (env : environment) (context : DataContext) (usage_event : string)
    (pair : string * dict) (l : loaded_batch) : Prop :=
  loaded_kwargs l = pair.2
  ∧ load_expectation_suite env context pair.1 usage_event = Return (loaded_suite l)
  ∧ load_batch env context (loaded_suite l) pair.2 = Return (loaded_asset l).




(** The world after some more events. *)
Definition after (w : world) (events : list event) : world :=
  {| files := files w; trace := trace w ++ events |}.

(** A project to run examples in: one checkpoint, [nightly], with two
    batches and three pairs; every batch loads and the operator succeeds
    when it is given three batches. *)
Definition sample_context : DataContext := {|
  root_directory := "/project/great_expectations";
  CHECKPOINTS_DIR := "checkpoints";
  GE_UNCOMMITTED_DIR := "uncommitted";
  list_checkpoints := ["nightly"];
  run_validation_operator := λ _ assets, Return {| success := (length assets =? 3)%nat |};
|}.

Definition sample_config : checkpoint_config := {|
  validation_operator_name := "action_list_operator";
  batches :=
    [ {| batch_kwargs := {[ "path" := VStr "visits.csv" ]};
         expectation_suite_names := ["visits.warning"; "visits.critical"] |};
      {| batch_kwargs := {[ "path" := VStr "users.csv" ]};
         expectation_suite_names := ["users.warning"] |} ];
|}.

Definition sample_env_with (context : DataContext) (config : checkpoint_config)
    (load_batch : DataContext → ExpectationSuite → dict → outcome pyexn N)
    : environment := {|
  load_data_context_with_error_handling := λ _, Return context;
  load_expectation_suite := λ _ suite_name _, Return {| expectation_suite_name := suite_name |};
  load_checkpoint := λ _ _ _, Return config;
  load_batch := load_batch;
  select_datasource := λ _ _, Some {| datasource_name := "files" |};
  get_batch_kwargs := λ _ _, Return {[ "path" := VStr "visits.csv" ]};
  load_checkpoint_yml_template :=
    Return {| validation_operator_name := "action_list_operator";
              batches := [ {| batch_kwargs := ∅; expectation_suite_names := [] |} ] |};
  yaml_dump := λ config, validation_operator_name config;
  load_script_template := Return "context.run_checkpoint()";
  format2 := λ template _ _, Return template;
  lint_code := λ code, Return code;
  abspath := λ path, path;
  repr := λ _, "{...}";
  sqlalchemy_installed := true;
|}.

Definition sample_env : environment :=
  sample_env_with sample_context sample_config
    (λ _ suite _, Return (N.of_nat (String.length (expectation_suite_name suite)))).






(** The same project when the second batch of the checkpoint lists no
    suite. *)
Definition unlisted_config : checkpoint_config := {|
  validation_operator_name := "action_list_operator";
  batches :=
    [ {| batch_kwargs := {[ "path" := VStr "visits.csv" ]};
         expectation_suite_names := ["visits.warning"] |};
      {| batch_kwargs := {[ "path" := VStr "users.csv" ]};
         expectation_suite_names := [] |} ];
|}.

Definition unlisted_env : environment :=
  sample_env_with sample_context unlisted_config (λ _ _ _, Return 1%N).

(** The same project with other answers of the toolkit. *)
Definition sample_env_of (config : checkpoint_config)
    (load_suite : string → outcome signal ExpectationSuite)
    (load_batch : ExpectationSuite → outcome pyexn N)
    (datasource : option Datasource) (installed : bool) : environment := {|
  load_data_context_with_error_handling := λ _, Return sample_context;
  load_expectation_suite := λ _ suite_name _, load_suite suite_name;
  load_checkpoint := λ _ _ _, Return config;
  load_batch := λ _ suite _, load_batch suite;
  select_datasource := λ _ _, datasource;
  get_batch_kwargs := λ _ _, Return {[ "path" := VStr "visits.csv" ]};
  load_checkpoint_yml_template :=
    Return {| validation_operator_name := "action_list_operator";
              batches := [ {| batch_kwargs := ∅; expectation_suite_names := [] |} ] |};
  yaml_dump := λ config, validation_operator_name config;
  load_script_template := Return "context.run_checkpoint()";
  format2 := λ template _ _, Return template;
  lint_code := λ code, Return code;
  abspath := λ path, path;
  repr := λ _, "{...}";
  sqlalchemy_installed := installed;
|}.

(** A [ValueError] and a [RuntimeError] out of a reader. *)
Definition bad_value : pyexn :=
  PyExn ["ValueError"; "Exception"; "BaseException"] "could not convert string to float".

Definition interrupted : pyexn :=
  PyExn ["RuntimeError"; "Exception"; "BaseException"] "generator raised StopIteration".

Definition empty_world : world := {| files := ∅; trace := [] |}.

(** The same project when the object storage refuses [users.csv]:
    [botocore.exceptions.ClientError] derives from [Exception] only. *)
Definition access_denied : pyexn :=
  PyExn ["ClientError"; "Exception"; "BaseException"]
    "An error occurred (AccessDenied) when calling the GetObject operation: Access Denied".

Definition denied_env : environment :=
  sample_env_with sample_context sample_config
    (λ _ suite _,
       if String.eqb (expectation_suite_name suite) "users.warning"
       then Raise access_denied else Return 1%N).




End Checkpoint.

(** * Properties *)

(** ** Strings *)

Section strings.

Lemma string_length_app (a b : string) :
  String.length (a +:+ b) = (String.length a + String.length b)%nat.
Proof. induction a as [|c a IH]; simpl; [done | by rewrite IH]. Qed.


Lemma string_drop_app (a b : string) : string_drop (String.length a) (a +:+ b) = b.
Proof. induction a as [|c a IH]; simpl; [by destruct b | done]. Qed.

Lemma string_drop_split (n : nat) (s : string) :
  ∃ stem, s = stem +:+ string_drop n s.
Proof.
  revert s. induction n as [|n IH]; intros s.
  - by exists "".
  - destruct s as [|c s]; simpl.
    + by exists "".
    + destruct (IH s) as [stem Hs]. exists (String c stem).
      change (String c s = String c (stem +:+ string_drop n s)). congruence.
Qed.

Lemma string_drop_drop (n m : nat) (s : string) :
  string_drop (n + m) s = string_drop m (string_drop n s).
Proof.
  revert s. induction n as [|n IH]; intros s; simpl; [done |].
  destruct s as [|c s]; [by destruct m | apply IH].
Qed.

(** [endswith] decides "is some stem followed by the suffix". *)
Lemma endswith_spec (s suffix : string) :
  endswith s suffix = true ↔ ∃ stem, s = stem +:+ suffix.
Proof.
  unfold endswith. rewrite andb_true_iff, Nat.leb_le, String.eqb_eq. split.
  - intros [_ Hd].
    destruct (string_drop_split (String.length s - String.length suffix) s)
      as [stem Hs].
    exists stem. congruence.
  - intros [stem ->]. rewrite string_length_app. split; [lia |].
    replace (String.length stem + String.length suffix - String.length suffix)%nat
      with (String.length stem) by lia.
    apply string_drop_app.
Qed.

Lemma endswith_app (stem suffix : string) : endswith (stem +:+ suffix) suffix = true.
Proof. apply endswith_spec. by exists stem. Qed.

(** Two suffixes of one string: the shorter is a suffix of the longer. *)
Lemma endswith_both (s a b : string) :
  endswith s a = true → endswith s b = true →
  endswith a b || endswith b a = true.
Proof.
  unfold endswith at 1 2. rewrite !andb_true_iff, !Nat.leb_le, !String.eqb_eq.
  intros [Ha Hda] [Hb Hdb].
  assert (Hcase : (String.length a <= String.length b ∨
                   String.length b <= String.length a)%nat) by lia.
  apply orb_true_iff. destruct Hcase as [Hle | Hle]; [right | left];
    unfold endswith; rewrite andb_true_iff, Nat.leb_le, String.eqb_eq;
    (split; [done |]).
  - transitivity (string_drop (String.length b - String.length a)
                    (string_drop (String.length s - String.length b) s));
      [by rewrite Hdb |].
    rewrite <- string_drop_drop.
    replace (String.length s - String.length b
             + (String.length b - String.length a))%nat
      with (String.length s - String.length a)%nat by lia.
    done.
  - transitivity (string_drop (String.length a - String.length b)
                    (string_drop (String.length s - String.length a) s));
      [by rewrite Hda |].
    rewrite <- string_drop_drop.
    replace (String.length s - String.length a
             + (String.length a - String.length b))%nat
      with (String.length s - String.length b)%nat by lia.
    done.
Qed.

(** A string that ends with [a] does not end with [b] when neither suffix
    ends with the other. *)
Lemma endswith_other (stem a b : string) :
  endswith a b || endswith b a = false → endswith (stem +:+ a) b = false.
Proof.
  intros Hab. destruct (endswith (stem +:+ a) b) eqn:Hb; [| done].
  pose proof (endswith_both _ _ _ (endswith_app stem a) Hb). congruence.
Qed.

End strings.

(** ** The pandas datasource *)

Module PandasTheory.
Import Pandas.

(** A branch of [load_data] that stops on an exception: the calls made so
    far, none of them a reader on a local path. *)
Ltac s3_leaf :=
  intros [= <- <-]; eexists;
  split; [first [ symmetry; apply app_nil_r | by rewrite <- ?(assoc_L (++)) ] |];
  split; [simpl; repeat (apply List.Forall_cons; [by intros ??? |]); apply List.Forall_nil |];
  split; [try done; by repeat case_match | done].

Lemma endswith_none (path suffix : string) :
  (¬ ∃ stem, path = stem +:+ suffix) → endswith path suffix = false.
Proof.
  intros Hno. destruct (endswith path suffix) eqn:He; [| done].
  by apply endswith_spec in He.
Qed.

(** C2. [guess_reader_method_from_path] is the table of suffixes: a path
    made of any stem and a suffix of the table gets the reader of that
    suffix (and gzip compression as a reader option for ".csv.gz"), whatever
    the stem; a path that ends with no suffix of the table raises
    [BatchKwargsError]. *)
Theorem guess_reader_method_from_path_table :
  (∀ (stem suffix : string) (result : dict),
      (suffix, result) ∈ reader_table →
      guess_reader_method_from_path (VStr (stem +:+ suffix)) = Return result)
  ∧ (∀ path : string,
      (∀ (suffix : string) (result : dict),
          (suffix, result) ∈ reader_table → ¬ ∃ stem, path = stem +:+ suffix) →
      guess_reader_method_from_path (VStr path)
      = Raise (BatchKwargsError
                 ("Unable to determine reader method from path: " +:+ path)
                 {[ "path" := VStr path ]})).
Proof.
  split.
  - intros stem suffix result Hin. unfold reader_table in Hin.
    repeat (apply elem_of_cons in Hin as [[= -> ->] | Hin]);
      [.. | by apply elem_of_nil in Hin];
      unfold guess_reader_method_from_path, guess_reader_method_from_path_str;
      rewrite ?endswith_app; rewrite ?endswith_other by reflexivity;
      reflexivity.
  - intros path Hnone.
    unfold guess_reader_method_from_path, guess_reader_method_from_path_str.
    rewrite !(endswith_none path); [reflexivity | ..];
      eapply Hnone; unfold reader_table;
      repeat first [ apply list_elem_of_here | apply list_elem_of_further ].
Qed.

Lemma guess_reader_method_from_path_table_witness :
  guess_reader_method_from_path (VStr "data/2020/visits.csv.gz")
  = Return (<[ "reader_options" := VDict {[ "compression" := VStr "gzip" ]} ]>
              {[ "reader_method" := VStr "read_csv" ]})
  ∧ guess_reader_method_from_path (VStr "notes.txt")
    = Raise (BatchKwargsError
               "Unable to determine reader method from path: notes.txt"
               {[ "path" := VStr "notes.txt" ]}).
Proof.
  split.
  - apply (proj1 guess_reader_method_from_path_table "data/2020/visits" ".csv.gz"
             (guess "read_csv" (Some {[ "compression" := VStr "gzip" ]}))).
    unfold reader_table. rewrite !elem_of_cons. tauto.
  - apply (proj2 guess_reader_method_from_path_table "notes.txt").
    intros suffix result Hin Hex. apply endswith_spec in Hex.
    unfold reader_table in Hin.
    repeat (apply elem_of_cons in Hin as [[= -> ->] | Hin]);
      [.. | by apply elem_of_nil in Hin]; discriminate Hex.
Defined.

(** *** Running [get_batch] *)

Section get_batch.

Variable env : environment.

Lemma guess_reader_method_from_path_error (path : pyval) (msg : string) (kw : dict) :
  guess_reader_method_from_path path = Raise (BatchKwargsError msg kw) →
  ∃ rest, msg = "Unable to " +:+ rest.
Proof.
  destruct path as [| | |p| | | |]; simpl; try discriminate.
  unfold guess_reader_method_from_path_str.
  repeat match goal with
         | |- context [if ?c then _ else _] => destruct c
         end;
    try discriminate.
  intros [= <- _]. by eexists.
Qed.

(** The [BatchKwargsError]s of [_get_reader_fn] are about the reader. *)
Lemma _get_reader_fn_error (reader_method path : pyval) (msg : string) (kw : dict) :
  _get_reader_fn env reader_method path = Raise (BatchKwargsError msg kw) →
  ∃ rest, msg = "Unable to " +:+ rest.
Proof.
  unfold _get_reader_fn.
  destruct (is_None reader_method && is_None path); [intros [= <- _]; by eexists |].
  set (guessed := if is_None reader_method then _ else _).
  assert (Hg : ∀ m k, guessed = Raise (BatchKwargsError m k) →
                      ∃ rest, m = "Unable to " +:+ rest).
  { subst guessed. destruct (is_None reader_method); [| done].
    destruct (guess_reader_method_from_path path) as [d | e] eqn:Hguess; [done |].
    intros m k [= ->]. by eapply guess_reader_method_from_path_error. }
  destruct guessed as [[method options] | e]; [| intros [= ->]; by eapply Hg].
  destruct method as [| | |m| | | |]; try discriminate.
  destruct (pd_hasattr env m); [| intros [= <- _]; by eexists].
  destruct options as [| | | |o| | |]; try discriminate.
  destruct (size o =? 0)%nat; [done |]. by destruct (pd_callable env m).
Qed.

(** [call_reader] makes at most one call, to the reader it was given, and
    returns what pandas returns. *)
Lemma call_reader_spec (fn : reader_fn) (input : reader_input) (options : pyval)
    (w w' : list call) (r : outcome ds_exn pyval) :
  call_reader env fn input options w = (r, w') →
  (w' = w ∧ ∃ e, r = Raise (Propagated e))
  ∨ (∃ kw, w' = w ++ [CallReader (rf_name fn) input kw]
           ∧ r = propagated (pd_call env (rf_name fn) input kw)).
Proof.
  unfold call_reader. destruct options; try (intros [= <- <-]; left; eauto).
  destruct (pd_callable env (rf_name fn)); [| intros [= <- <-]; left; eauto].
  unfold bind, log, modify, propagate, lift. simpl.
  intros [= <- <-]. right. by eexists.
Qed.


(** After the data is loaded [get_batch] makes no further call: it measures
    the frame, fingerprints it under the threshold and builds the batch. *)
Lemma get_batch_finish (self : PandasDatasource) (bk : dict) (bp : pyval)
    (w w' : list call) (r : outcome ds_exn Batch) :
  get_batch env self bk bp w = (r, w') →
  ∃ loaded,
    load_data env self bk (default (VDict ∅) (bk !! "reader_options")) w = (loaded, w')
    ∧ match loaded with
      | Raise e => r = Raise e
      | Return (df, bk') =>
          (∃ e, r = Raise (Propagated e))
          ∨ (∃ b usage,
                r = Return b ∧ data b = df ∧ batch_kwargs b = bk'
                ∧ memory_usage_sum env df = Return usage
                ∧ ("pandas_data_fingerprint" ∈ dom (batch_markers b)
                   ↔ (usage < HASH_THRESHOLD)%Z))
      end.
Proof.
  unfold get_batch, bind at 1.
  destruct (load_data _ _ _ _ w) as [[[df bk'] | e] w1];
    [| intros [= <- <-]; by eexists].
  unfold bind, propagate, lift, ret. simpl.
  destruct (memory_usage_sum env df) as [usage | e] eqn:Husage; simpl;
    [| intros [= <- <-]; eexists; split; [done |]; left; by eexists].
  destruct (Z.ltb_spec usage HASH_THRESHOLD) as [Hlt | Hge].
  - destruct (hash_pandas_dataframe env df) as [fingerprint | e]; simpl;
      intros [= <- <-]; eexists; (split; [done |]); [right | left; by eexists].
    eexists _, usage; repeat split; simpl; try done;
      try (intros _; rewrite dom_insert_L; set_solver).
  - intros [= <- <-]. eexists; split; [done |]. right.
    eexists _, usage; repeat split; simpl; try done; try lia;
      try (rewrite dom_singleton_L, elem_of_singleton; discriminate).
Qed.


(** The local-path branch: at most one call, the reader on the path. *)
Lemma load_data_path (self : PandasDatasource) (bk : dict) (options path : pyval)
    (w w' : list call) (r : outcome ds_exn (pyval * dict)) :
  bk !! "path" = Some path →
  load_data env self bk options w = (r, w') →
  (w' = w ∧ ((∃ e, r = Raise (Propagated e))
             ∨ ∃ rest kw, r = Raise (BatchKwargsError ("Unable to " +:+ rest) kw)))
  ∨ (∃ m kw, w' = w ++ [CallReader m (InPath path) kw]
             ∧ r = match pd_call env m (InPath path) kw with
                   | Return df => Return (df, bk)
                   | Raise e => Raise (Propagated e)
                   end).
Proof.
  intros Hpath. unfold load_data. rewrite Hpath.
  unfold bind at 1, lift.
  destruct (_get_reader_fn env _ path) as [fn | [msg kw | e]] eqn:Hfn.
  - unfold bind.
    destruct (call_reader env fn (InPath path) options w) as [r1 w1] eqn:Hcall.
    apply call_reader_spec in Hcall as [[-> [e ->]] | [kw [-> ->]]].
    + intros [= <- <-]. left. split; [done |]. left. by eexists.
    + intros H. right. exists (rf_name fn), kw. split.
      * by destruct (pd_call env _ _ _); injection H as _ <-.
      * by destruct (pd_call env _ _ _); injection H as <- _.
  - intros [= <- <-]. apply _get_reader_fn_error in Hfn as [rest ->].
    left. split; [done |]. right. by eexists _, _.
  - intros [= <- <-]. left. split; [done |]. left. by eexists.
Qed.

(** The object-storage branch: the client, the object, its body, the reader
    on the decoded body; never a reader on a local path. *)
Lemma load_data_s3 (self : PandasDatasource) (bk : dict) (options raw_url : pyval)
    (w w' : list call) (r : outcome ds_exn (pyval * dict)) :
  bk !! "path" = None → bk !! "s3" = Some raw_url →
  load_data env self bk options w = (r, w') →
  ∃ calls, w' = w ++ calls
    ∧ Forall (λ c, ∀ m p kw, c ≠ CallReader m (InPath p) kw) calls
    ∧ (∀ kw, r ≠ Raise (BatchKwargsError invalid_batch_kwargs kw))
    ∧ (∀ df bk', r = Return (df, bk') →
         bk' = bk
         ∧ ∃ bucket key m text kw,
             S3Url env raw_url = Return (bucket, key)
             ∧ CallGetObject bucket key ∈ calls
             ∧ CallReader m (InBuffer text) kw ∈ calls
             ∧ pd_call env m (InBuffer text) kw = Return df).
Proof.
  intros Hpath Hs3. unfold load_data. rewrite Hpath, Hs3.
  unfold load_boto3_client, bind, propagate, lift, log, modify, raise, ret.
  destruct (import_boto3 env) as [[] | e0]; [| s3_leaf].
  destruct (_boto3_options self) as [| | | |boto3_options| | |]; try s3_leaf.
  destruct (boto3_client env boto3_options) as [s3 | e1]; [| s3_leaf].
  destruct (S3Url env raw_url) as [[bucket key] | e2] eqn:Hurl; simpl; [| s3_leaf].
  destruct (s3_get_object env s3 bucket key) as [s3_object | e3]; simpl; [| s3_leaf].
  destruct (_get_reader_fn env _ (VStr key)) as [fn | [msg kw | e4]] eqn:Hfn;
    [| apply _get_reader_fn_error in Hfn as [rest ->]; s3_leaf | s3_leaf].
  destruct (s3_read_body env s3_object) as [text | e5]; simpl; [| s3_leaf].
  match goal with
  | |- context [call_reader env fn (InBuffer text) options ?w0] =>
      destruct (call_reader env fn (InBuffer text) options w0) as [r1 w1] eqn:Hcall
  end.
  apply call_reader_spec in Hcall as [[-> [e ->]] | [kw [-> ->]]]; [s3_leaf |].
  destruct (pd_call env (rf_name fn) (InBuffer text) kw) as [df | e6] eqn:Hread;
    simpl; [| s3_leaf].
  intros [= <- <-]. eexists. split; [by rewrite <- !(assoc_L (++)) |].
  split; [repeat (apply List.Forall_cons; [by intros ??? |]); apply List.Forall_nil |].
  split; [done |]. intros df' bk' [= <- <-]. split; [done |].
  exists bucket, key, (rf_name fn), text, kw.
  split; [done |]. split; [set_solver |]. split; [set_solver | done].
Qed.


(** Without ["path"] and ["s3"], no call is made: the frame under
    ["dataset"] is the data, or the batch kwargs are invalid. *)
Lemma load_data_dataset (self : PandasDatasource) (bk : dict) (options : pyval)
    (w : list call) :
  bk !! "path" = None → bk !! "s3" = None →
  load_data env self bk options w
  = (match bk !! "dataset" with
     | Some df =>
         if is_frame df then
           Return (df, <[ "ge_batch_id" := VStr (uuid1 env) ]>
                         (<[ "PandasInMemoryDF" := VBool true ]>
                            (filter (λ kv, kv.1 ≠ "dataset") bk)))
         else Raise (BatchKwargsError invalid_batch_kwargs bk)
     | None => Raise (BatchKwargsError invalid_batch_kwargs bk)
     end, w).
Proof.
  intros Hpath Hs3. unfold load_data. rewrite Hpath, Hs3.
  destruct (bk !! "dataset") as [df |]; [| done]. by destruct (is_frame df).
Qed.




(** C4. A batch that [get_batch] returns carries a
    ["pandas_data_fingerprint"] marker if and only if the memory usage of
    its data is strictly below [HASH_THRESHOLD], 10^9 bytes. *)
Theorem get_batch_fingerprint (self : PandasDatasource) (bk : dict) (bp : pyval)
    (w w' : list call) (b : Batch) :
  get_batch env self bk bp w = (Return b, w') →
  HASH_THRESHOLD = (10 ^ 9)%Z
  ∧ ∃ usage,
      memory_usage_sum env (data b) = Return usage
      ∧ ("pandas_data_fingerprint" ∈ dom (batch_markers b)
         ↔ (usage < HASH_THRESHOLD)%Z).
Proof.
  intros Hrun. split; [done |].
  apply get_batch_finish in Hrun as [[[df bk'] | e] [_ Hfinish]]; [| done].
  destruct Hfinish as [[e [=]] | [b' [usage [[= <-] [<- [_ [Husage Hmark]]]]]]].
  by exists usage.
Qed.

(** Filtering ["dataset"] out keeps every other key. *)
Lemma lookup_without_dataset (bk : dict) (k : string) :
  filter (λ kv, kv.1 ≠ "dataset") bk !! k = if decide (k = "dataset") then None else bk !! k.
Proof.
  case_decide as Hk.
  - subst k. apply map_lookup_filter_None. right. intros v _ Hne. by apply Hne.
  - apply option_eq. intros v. rewrite map_lookup_filter_Some. simpl. tauto.
Qed.

(** C9 (amended). When the in-memory strategy is taken (no ["path"], no
    ["s3"], a frame or a series under ["dataset"]) and a batch is returned,
    its data is that frame, its batch kwargs have no ["dataset"] key, they
    have ["PandasInMemoryDF"] set to [True] and ["ge_batch_id"] set to the
    new uuid, whatever the descriptor held under these two keys, and every
    key other than these three is as in the descriptor. *)
Theorem get_batch_dataset_kwargs (self : PandasDatasource) (bk : dict) (bp df : pyval)
    (w w' : list call) (b : Batch) :
  bk !! "path" = None → bk !! "s3" = None →
  bk !! "dataset" = Some df → is_frame df = true →
  get_batch env self bk bp w = (Return b, w') →
  data b = df
  ∧ batch_kwargs b !! "dataset" = None
  ∧ batch_kwargs b !! "PandasInMemoryDF" = Some (VBool true)
  ∧ batch_kwargs b !! "ge_batch_id" = Some (VStr (uuid1 env))
  ∧ ∀ k, k ≠ "dataset" → k ≠ "PandasInMemoryDF" → k ≠ "ge_batch_id" →
         batch_kwargs b !! k = bk !! k.
Proof.
  intros Hpath Hs3 Hdf Hframe Hrun.
  apply get_batch_finish in Hrun as [loaded [Hload Hfinish]].
  rewrite load_data_dataset, Hdf, Hframe in Hload by done.
  injection Hload as <- <-.
  destruct Hfinish as [[e [=]] | [b' [usage [[= <-] [-> [-> _]]]]]].
  split; [done |]. split; [| split; [| split]].
  - rewrite !lookup_insert_ne by done. rewrite lookup_without_dataset.
    by case_decide.
  - rewrite lookup_insert_ne by done. by rewrite lookup_insert_eq.
  - by rewrite lookup_insert_eq.
  - intros k Hk1 Hk2 Hk3. rewrite !lookup_insert_ne by done.
    rewrite lookup_without_dataset. by case_decide.
Qed.

End get_batch.


(** *** [get_batch] on examples *)



Lemma get_batch_fingerprint_witness :
  let bk : dict := {[ "dataset" := VDataFrame 3 ]} in
  ∃ b, get_batch sample_env sample_datasource bk VNone [] = (Return b, [])
       ∧ memory_usage_sum sample_env (data b) = Return 1024%Z
       ∧ "pandas_data_fingerprint" ∈ dom (batch_markers b).
Proof.
  intros bk.
  pose (b := {| datasource_name := "pandas";
                batch_kwargs :=
                  <[ "ge_batch_id" := VStr "5f0c4a3e-7400-11ea-bc55-0242ac130003" ]>
                    {[ "PandasInMemoryDF" := VBool true ]};
                data := VDataFrame 3;
                batch_parameters := VNone;
                batch_markers :=
                  <[ "pandas_data_fingerprint" := VStr "0f3a" ]>
                    {[ "ge_load_time" := VStr "20200401T120000.000000Z" ]};
                data_context := VNone |}).
  assert (Hrun : get_batch sample_env sample_datasource bk VNone [] = (Return b, []))
    by (vm_compute; reflexivity).
  exists b. split; [exact Hrun |]. split; [reflexivity |].
  destruct (get_batch_fingerprint sample_env sample_datasource bk VNone _ _ _ Hrun)
    as [_ [usage [Husage Hmark]]].
  apply Hmark. injection Husage as <-. reflexivity.
Defined.

(** C9, as stated, fails: the kwargs of an earlier in-memory batch, given
    again with a frame, come back with another ["ge_batch_id"]. *)
Lemma get_batch_dataset_replaces_ge_batch_id :
  let bk : dict :=
    <[ "dataset" := VDataFrame 3 ]>
      (<[ "PandasInMemoryDF" := VBool true ]>
         {[ "ge_batch_id" := VStr "0b9d1f2c-73fb-11ea-bc55-0242ac130003" ]}) in
  ∃ b, get_batch sample_env sample_datasource bk VNone [] = (Return b, [])
       ∧ bk !! "ge_batch_id" = Some (VStr "0b9d1f2c-73fb-11ea-bc55-0242ac130003")
       ∧ batch_kwargs b !! "ge_batch_id"
         = Some (VStr "5f0c4a3e-7400-11ea-bc55-0242ac130003")
       ∧ batch_kwargs b !! "ge_batch_id" ≠ bk !! "ge_batch_id".
Proof.
  intros bk.
  eexists {| datasource_name := "pandas";
             batch_kwargs :=
               <[ "ge_batch_id" := VStr "5f0c4a3e-7400-11ea-bc55-0242ac130003" ]>
                 {[ "PandasInMemoryDF" := VBool true ]};
             data := VDataFrame 3;
             batch_parameters := VNone;
             batch_markers :=
               <[ "pandas_data_fingerprint" := VStr "0f3a" ]>
                 {[ "ge_load_time" := VStr "20200401T120000.000000Z" ]};
             data_context := VNone |}.
  split; [vm_compute; reflexivity |].
  split; [vm_compute; reflexivity |].
  split; [vm_compute; reflexivity |].
  vm_compute. discriminate.
Qed.

Lemma get_batch_dataset_kwargs_witness :
  let bk : dict := <[ "dataset" := VSeries 4 ]> {[ "table" := VStr "visits" ]} in
  ∃ b, get_batch sample_env sample_datasource bk VNone [] = (Return b, [])
       ∧ batch_kwargs b !! "dataset" = None
       ∧ batch_kwargs b !! "table" = Some (VStr "visits").
Proof.
  intros bk.
  pose (b := {| datasource_name := "pandas";
                batch_kwargs :=
                  <[ "ge_batch_id" := VStr "5f0c4a3e-7400-11ea-bc55-0242ac130003" ]>
                    (<[ "PandasInMemoryDF" := VBool true ]>
                       {[ "table" := VStr "visits" ]});
                data := VSeries 4;
                batch_parameters := VNone;
                batch_markers :=
                  <[ "pandas_data_fingerprint" := VStr "0f3a" ]>
                    {[ "ge_load_time" := VStr "20200401T120000.000000Z" ]};
                data_context := VNone |}).
  assert (Hrun : get_batch sample_env sample_datasource bk VNone [] = (Return b, []))
    by (vm_compute; reflexivity).
  exists b. split; [exact Hrun |].
  destruct (get_batch_dataset_kwargs sample_env sample_datasource bk VNone (VSeries 4)
              [] [] b) as (_ & Hdataset & _ & _ & Hothers);
    [reflexivity | reflexivity | reflexivity | reflexivity | exact Hrun |].
  split; [exact Hdataset |].
  rewrite (Hothers "table") by discriminate. reflexivity.
Defined.


(** *** [process_batch_parameters] *)

Section process_batch_parameters.

Variable env : environment.

Lemma ensure_reader_options_spec (bk : dict) (w : list call) :
  reader_options_ok bk →
  ∃ bk', ensure_reader_options bk w = (Return bk', w)
         ∧ (∃ d, bk' !! "reader_options" = Some (VDict d))
         ∧ reader_options_of bk' = reader_options_of bk
         ∧ ∀ k, k ≠ "reader_options" → bk' !! k = bk !! k.
Proof.
  unfold reader_options_ok, reader_options_of, ensure_reader_options, dict_get.
  unfold bind, propagate, lift, ret.
  destruct (bk !! "reader_options") as [[| | | |d| | |] |] eqn:Hro; try done; intros _; simpl.
  - destruct (size d =? 0)%nat eqn:Hsize; simpl.
    + apply Nat.eqb_eq, map_size_empty_inv in Hsize as ->.
      eexists. split; [done |]. rewrite lookup_insert_eq.
      split; [by eexists |]. split; [done |]. intros k Hk. by rewrite lookup_insert_ne.
    + eexists. split; [done |]. rewrite Hro. split; [by eexists |]. done.
  - eexists. split; [done |]. rewrite lookup_insert_eq.
    split; [by eexists |]. split; [done |]. intros k Hk. by rewrite lookup_insert_ne.
Qed.

(** [update]: the keys of the other dictionary win, the rest stays. *)
Lemma update_reader_options_spec (bk other : dict) (w : list call) :
  reader_options_ok bk →
  ∃ bk', update_reader_options bk (VDict other) w = (Return bk', w)
         ∧ reader_options_ok bk'
         ∧ reader_options_of bk' = other ∪ reader_options_of bk
         ∧ ∀ k, k ≠ "reader_options" → bk' !! k = bk !! k.
Proof.
  intros Hok. unfold update_reader_options, bind.
  destruct (ensure_reader_options_spec bk w Hok) as (bk1 & -> & [d Hd] & Hof & Hother).
  unfold dict_get. rewrite Hd. simpl. eexists. split; [done |].
  unfold reader_options_ok, reader_options_of in *. rewrite lookup_insert_eq.
  rewrite Hd in Hof. subst d. split; [done |]. split; [done |].
  intros k Hk. rewrite lookup_insert_ne by done. by apply Hother.
Qed.

(** [nrows] is set, the rest stays. *)
Lemma set_nrows_spec (bk : dict) (limit : pyval) (w : list call) :
  reader_options_ok bk →
  ∃ bk', set_nrows bk limit w = (Return bk', w)
         ∧ reader_options_ok bk'
         ∧ reader_options_of bk' = <[ "nrows" := limit ]> (reader_options_of bk)
         ∧ ∀ k, k ≠ "reader_options" → bk' !! k = bk !! k.
Proof.
  intros Hok. unfold set_nrows, bind.
  destruct (ensure_reader_options_spec bk w Hok) as (bk1 & -> & [d Hd] & Hof & Hother).
  unfold dict_get. rewrite Hd. simpl. eexists. split; [done |].
  unfold reader_options_ok, reader_options_of in *. rewrite lookup_insert_eq.
  rewrite Hd in Hof. subst d. split; [done |]. split; [done |].
  intros k Hk. rewrite lookup_insert_ne by done. by apply Hother.
Qed.

(** The order of the merge on a datasource that holds its defaults: the
    reader options of the datasource, updated with the ones of the call;
    then ["nrows"] from a limit of the datasource that is not zero, then
    from a limit of the call; the reader method of the call over the one of
    the datasource. *)
Lemma process_batch_parameters_merge (self : PandasDatasource)
    (reader_method limit dataset_options : pyval) (configured given base : dict)
    (limited has_method : bool) (w : list call) :
  super_process_batch_parameters env dataset_options = Return base →
  reader_options_ok base →
  _reader_options self = VDict configured →
  truth (_limit self) = Return limited →
  truth (_reader_method self) = Return has_method →
  ∃ bk,
    process_batch_parameters env self reader_method (VDict given) limit dataset_options w
    = (Return bk, w)
    ∧ reader_options_of bk
      = (let merged := given ∪ (configured ∪ reader_options_of base) in
         let merged := if limited then <[ "nrows" := _limit self ]> merged else merged in
         if is_None limit then merged else <[ "nrows" := limit ]> merged)
    ∧ bk !! "reader_method"
      = (if is_None reader_method then
           if has_method then Some (_reader_method self) else base !! "reader_method"
         else Some reader_method).
Proof.
  intros Hsuper Hbase Hconfigured Hlimited Hmethod.
  unfold process_batch_parameters.
  rewrite Hsuper, Hconfigured, Hlimited, Hmethod.
  unfold bind at 1, propagate at 1, lift at 1, propagated at 1.
  unfold bind at 1, propagate at 1, lift at 1, propagated at 1, truth at 1.
  assert (H1 : ∃ bk1,
    (if negb (size configured =? 0)%nat
     then update_reader_options base (VDict configured)
     else ret base) w = (Return bk1, w)
    ∧ reader_options_ok bk1
    ∧ reader_options_of bk1 = configured ∪ reader_options_of base
    ∧ ∀ k, k ≠ "reader_options" → bk1 !! k = base !! k).
  { destruct (size configured =? 0)%nat eqn:Hsize; simpl.
    - apply Nat.eqb_eq, map_size_empty_inv in Hsize as ->.
      exists base. by rewrite (left_id_L ∅ (∪)).
    - by apply update_reader_options_spec. }
  destruct H1 as (bk1 & Hrun1 & Hok1 & Hof1 & Hkeys1).
  unfold bind at 1. rewrite Hrun1.
  unfold bind at 1, propagate at 1, lift at 1, propagated at 1, truth at 1.
  assert (H2 : ∃ bk2,
    (if negb (size given =? 0)%nat
     then update_reader_options bk1 (VDict given)
     else ret bk1) w = (Return bk2, w)
    ∧ reader_options_ok bk2
    ∧ reader_options_of bk2 = given ∪ reader_options_of bk1
    ∧ ∀ k, k ≠ "reader_options" → bk2 !! k = bk1 !! k).
  { destruct (size given =? 0)%nat eqn:Hsize; simpl.
    - apply Nat.eqb_eq, map_size_empty_inv in Hsize as ->.
      exists bk1. by rewrite (left_id_L ∅ (∪)).
    - by apply update_reader_options_spec. }
  destruct H2 as (bk2 & Hrun2 & Hok2 & Hof2 & Hkeys2).
  unfold bind at 1. rewrite Hrun2.
  unfold bind at 1, propagate at 1, lift at 1, propagated at 1.
  assert (H3 : ∃ bk3,
    (if limited then set_nrows bk2 (_limit self) else ret bk2) w = (Return bk3, w)
    ∧ reader_options_ok bk3
    ∧ reader_options_of bk3
      = (if limited then <[ "nrows" := _limit self ]> (reader_options_of bk2)
         else reader_options_of bk2)
    ∧ ∀ k, k ≠ "reader_options" → bk3 !! k = bk2 !! k).
  { destruct limited; [by apply set_nrows_spec | by exists bk2]. }
  destruct H3 as (bk3 & Hrun3 & Hok3 & Hof3 & Hkeys3).
  unfold bind at 1. rewrite Hrun3.
  assert (H4 : ∃ bk4,
    (if is_None limit then ret bk3 else set_nrows bk3 limit) w = (Return bk4, w)
    ∧ reader_options_of bk4
      = (if is_None limit then reader_options_of bk3
         else <[ "nrows" := limit ]> (reader_options_of bk3))
    ∧ ∀ k, k ≠ "reader_options" → bk4 !! k = bk3 !! k).
  { destruct (is_None limit); [by exists bk3 |].
    destruct (set_nrows_spec bk3 limit w Hok3) as (bk4 & ? & _ & ? & ?). by exists bk4. }
  destruct H4 as (bk4 & Hrun4 & Hof4 & Hkeys4).
  unfold bind at 1. rewrite Hrun4.
  unfold bind, propagate, lift, propagated, ret.
  eexists. split; [done |]. split.
  - unfold reader_options_of at 1.
    assert (Hsame : ∀ bk : dict,
      (if is_None reader_method
       then if has_method then <[ "reader_method" := _reader_method self ]> bk else bk
       else <[ "reader_method" := reader_method ]>
              (if has_method then <[ "reader_method" := _reader_method self ]> bk else bk))
      !! "reader_options" = bk !! "reader_options").
    { intros bk. destruct (is_None reader_method), has_method;
        by rewrite ?lookup_insert_ne. }
    rewrite Hsame. fold (reader_options_of bk4).
    rewrite Hof4, Hof3, Hof2, Hof1. simpl. done.
  - destruct (is_None reader_method), has_method;
      rewrite ?lookup_insert_eq; try done;
      by rewrite ?Hkeys4, ?Hkeys3, ?Hkeys2, ?Hkeys1.
Qed.

(** C3 at a datasource built with [reader_options={"sep": "|"}] and
    [limit=0]: [build_configuration] spreads the reader options over the
    configuration instead of storing them under ["reader_options"], so the
    datasource holds none, and the limit 0 does not pass [if self._limit];
    [process_batch_parameters] returns what the base class returns, with
    neither ["sep"] nor ["nrows"]. *)
Theorem process_batch_parameters_configured_defaults_lost
    (dataset_options : pyval) (w : list call) :
  ∃ self,
    __init__ env "pandas" VNone VNone VNone VNone VNone
      (VDict {[ "sep" := VStr "|" ]}) (VInt 0) ∅ w = (Return self, w)
    ∧ _reader_options self = VNone
    ∧ _limit self = VInt 0
    ∧ process_batch_parameters env self VNone VNone VNone dataset_options w
      = (propagated (super_process_batch_parameters env dataset_options), w).
Proof.
  eexists. split; [vm_compute; reflexivity |].
  split; [reflexivity |]. split; [reflexivity |].
  unfold process_batch_parameters, bind, propagate, lift, ret. simpl.
  by destruct (super_process_batch_parameters env dataset_options).
Qed.

(** The sibling path: a limit of 0 given to the call does set ["nrows"]. *)
Lemma process_batch_parameters_call_limit_zero :
  process_batch_parameters sample_env sample_datasource VNone VNone (VInt 0) VNone []
  = (Return {[ "reader_options" := VDict {[ "nrows" := VInt 0 ]} ]}, []).
Proof. vm_compute. reflexivity. Qed.

End process_batch_parameters.

End PandasTheory.

(** ** The checkpoint commands *)

Module CheckpointTheory.
Import Checkpoint.


Section commands.

Variable env : environment.

Lemma after_nil (w : world) : after w [] = w.
Proof. destruct w. unfold after. simpl. by rewrite app_nil_r. Qed.

Lemma after_after (w : world) (events more : list event) :
  after (after w events) more = after w (events ++ more).
Proof. unfold after. simpl. by rewrite (assoc_L (++)). Qed.

Lemma emit_after (e : event) (w : world) : emit e w = (Return tt, after w [e]).
Proof. done. Qed.

(** The loop over the suites of one batch entry, when every batch loads. *)
Lemma load_suites_ok (context : DataContext) (kwargs : dict) (checkpoint_file : string)
    (suite_names : list string) (loaded : list loaded_batch)
    (batches_to_validate : list N) (w : world) :
  Forall2 (λ suite_name l, loads env context "cli.checkpoint.run" (suite_name, kwargs) l)
    suite_names loaded →
  load_suites env context "cli.checkpoint.run" kwargs checkpoint_file
    suite_names batches_to_validate w
  = (Return (batches_to_validate ++ map loaded_asset loaded),
     after w (map (λ l, LoadBatch (loaded_suite l) (loaded_kwargs l)) loaded)).
Proof.
  intros Hall. revert batches_to_validate w.
  induction Hall as [| suite_name l suite_names loaded (Hkw & Hsuite & Hbatch) _ IH];
    intros batches_to_validate w; simpl.
  - by rewrite app_nil_r, after_nil.
  - simpl in Hkw, Hsuite, Hbatch.
    unfold bind at 1, from_toolkit, lift. rewrite Hsuite.
    unfold bind at 1, load_batch_or_exit. unfold bind at 1. rewrite emit_after, Hbatch.
    unfold ret at 1. rewrite IH, after_after, <- (assoc_L (++)), Hkw. done.
Qed.

(** The loop over the batch entries, when every entry lists a suite and
    every batch loads. *)
Lemma load_batches_ok (context : DataContext) (checkpoint_file : string)
    (entries : list batch_entry) (loaded : list loaded_batch)
    (batches_to_validate : list N) (w : world) :
  Forall (λ entry, expectation_suite_names entry ≠ []) entries →
  Forall2 (loads env context "cli.checkpoint.run") (suite_pairs entries) loaded →
  load_batches env context "cli.checkpoint.run" checkpoint_file entries
    batches_to_validate w
  = (Return (batches_to_validate ++ map loaded_asset loaded),
     after w (map (λ l, LoadBatch (loaded_suite l) (loaded_kwargs l)) loaded)).
Proof.
  intros Hlisted. revert loaded batches_to_validate w.
  induction Hlisted as [| entry entries Hentry _ IH];
    intros loaded batches_to_validate w Hall; simpl in *.
  - apply Forall2_nil_inv_l in Hall as ->. simpl. by rewrite app_nil_r, after_nil.
  - apply Forall2_app_inv_l in Hall as (first & rest & Hfirst & Hrest & ->).
    apply (proj1 (Forall2_fmap_l (λ suite_name, (suite_name, batch_kwargs entry))
                   _ _ _)) in Hfirst.
    unfold bind at 1, _validate_at_least_one_suite_is_listed.
    destruct (expectation_suite_names entry) as [| suite_name suite_names] eqn:Hnames;
      [done |].
    unfold ret at 1. unfold bind at 1.
    rewrite (load_suites_ok _ _ _ _ first) by exact Hfirst.
    rewrite (IH rest) by done.
    by rewrite after_after, !map_app, (assoc_L (++)).
Qed.


(** [checkpoint_run] up to the end of its loop. *)
Lemma checkpoint_run_loop (checkpoint : string) (directory : pyval) (w : world)
    (context : DataContext) (config : checkpoint_config) :
  load_data_context_with_error_handling env directory = Return context →
  load_checkpoint env context checkpoint "cli.checkpoint.run" = Return config →
  checkpoint_run env checkpoint directory w
  = match load_batches env context "cli.checkpoint.run" (checkpoint_file_of checkpoint)
            (batches config) [] w with
    | (Raise s, w1) => (Raise s, w1)
    | (Return assets, w1) =>
        match run_validation_operator context (validation_operator_name config) assets with
        | Return results =>
            (Raise (SystemExit (if success results then 0 else 1)),
             after w1 [RunValidationOperator (validation_operator_name config) assets;
                       Message (if success results then "Validation Succeeded!"
                                else "Validation Failed!");
                       UsageMessage "cli.checkpoint.run" true])
        | Raise e =>
            if isinstance e "DataContextError" then
              (Raise (SystemExit 1),
               after w1 [RunValidationOperator (validation_operator_name config) assets;
                         Message ("<red>" +:+ exn_msg e +:+ "</red>");
                         UsageMessage "cli.checkpoint.run" false])
            else
              (Raise (Error e),
               after w1 [RunValidationOperator (validation_operator_name config) assets])
        end
    end.
Proof.
  intros Hcontext Hconfig. unfold checkpoint_run.
  unfold bind at 1, from_toolkit at 1, lift at 1. rewrite Hcontext.
  unfold bind at 1, from_toolkit at 1, lift at 1. rewrite Hconfig.
  unfold bind at 1.
  destruct (load_batches _ _ _ _ _ _ w) as [[assets | s] w1]; [| done].
  unfold bind at 1. rewrite emit_after. unfold bind at 1.
  destruct (run_validation_operator _ _ _) as [results | e].
  - unfold ret at 1. destruct (success results); simpl;
      unfold bind, cli_message, send_usage_message, sys_exit, raise;
      by rewrite !emit_after, !after_after.
  - destruct (isinstance e "DataContextError"); [| done].
    unfold exit_with_failure_message_and_stats, bind, cli_message,
      send_usage_message, sys_exit, raise.
    by rewrite !emit_after, !after_after.
Qed.

(** C5. When every suite and every batch loads and the operator returns,
    [checkpoint_run] loads one batch for every pair of a batch entry and a
    suite name listed for it, in order, then calls the validation operator
    of the checkpoint once, on all the loaded batches, and exits with 0
    when the results say success and with 1 otherwise. *)
Theorem checkpoint_run_loads_every_pair (checkpoint : string) (directory : pyval)
    (w : world) (context : DataContext) (config : checkpoint_config)
    (loaded : list loaded_batch) (results : validation_result) :
  load_data_context_with_error_handling env directory = Return context →
  load_checkpoint env context checkpoint "cli.checkpoint.run" = Return config →
  Forall (λ entry, expectation_suite_names entry ≠ []) (batches config) →
  Forall2 (loads env context "cli.checkpoint.run") (suite_pairs (batches config)) loaded →
  run_validation_operator context (validation_operator_name config)
    (map loaded_asset loaded) = Return results →
  checkpoint_run env checkpoint directory w
  = (Raise (SystemExit (if success results then 0 else 1)),
     after w
       (map (λ l, LoadBatch (loaded_suite l) (loaded_kwargs l)) loaded
        ++ [RunValidationOperator (validation_operator_name config)
              (map loaded_asset loaded);
            Message (if success results then "Validation Succeeded!"
                     else "Validation Failed!");
            UsageMessage "cli.checkpoint.run" true])).
Proof.
  intros Hcontext Hconfig Hlisted Hloads Hresults.
  rewrite (checkpoint_run_loop _ _ _ context config) by done.
  rewrite (load_batches_ok _ _ _ loaded) by done. simpl.
  by rewrite Hresults, after_after.
Qed.

(** C6. [checkpoint_run] ends the process with status 0 when the
    validation operator reports success and with status 1 when it reports
    failure; [checkpoint_list] ends it with status 0 when there is no
    checkpoint. *)
Theorem checkpoint_exit_codes :
  (∀ (checkpoint : string) (directory : pyval) (w w1 : world) (context : DataContext)
     (config : checkpoint_config) (assets : list N) (results : validation_result),
      load_data_context_with_error_handling env directory = Return context →
      load_checkpoint env context checkpoint "cli.checkpoint.run" = Return config →
      load_batches env context "cli.checkpoint.run" (checkpoint_file_of checkpoint)
        (batches config) [] w = (Return assets, w1) →
      run_validation_operator context (validation_operator_name config) assets
      = Return results →
      (checkpoint_run env checkpoint directory w).1
      = Raise (SystemExit (if success results then 0 else 1))
      ∧ exit_status (checkpoint_run env checkpoint directory w).1
        = (if success results then 0 else 1)%Z)
  ∧ (∀ (directory : pyval) (w : world) (context : DataContext),
      load_data_context_with_error_handling env directory = Return context →
      list_checkpoints context = [] →
      (checkpoint_list env directory w).1 = Raise (SystemExit 0)
      ∧ exit_status (checkpoint_list env directory w).1 = 0%Z).
Proof.
  split.
  - intros checkpoint directory w w1 context config assets results
      Hcontext Hconfig Hloop Hresults.
    rewrite (checkpoint_run_loop _ _ _ context config), Hloop, Hresults by done.
    done.
  - intros directory w context Hcontext Hnone.
    assert (Hlist : (checkpoint_list env directory w).1 = Raise (SystemExit 0)).
    { unfold checkpoint_list.
      unfold bind at 1, from_toolkit, lift. by rewrite Hcontext, Hnone. }
    by rewrite Hlist.
Qed.


(** The loops go through a list in order: what comes after an element runs
    in the world, and with the batches, the elements before it left. *)
Lemma load_suites_app (context : DataContext) (usage_event : string) (kwargs : dict)
    (checkpoint_file : string) (names more : list string)
    (batches_to_validate : list N) (w : world) :
  load_suites env context usage_event kwargs checkpoint_file (names ++ more)
    batches_to_validate w
  = match load_suites env context usage_event kwargs checkpoint_file names
            batches_to_validate w with
    | (Return assets, w1) =>
        load_suites env context usage_event kwargs checkpoint_file more assets w1
    | (Raise s, w1) => (Raise s, w1)
    end.
Proof.
  revert batches_to_validate w.
  induction names as [| suite_name names IH]; intros batches_to_validate w; simpl;
    [done |].
  unfold bind.
  destruct (from_toolkit _ w) as [[suite | s] w0]; [| done].
  destruct (load_batch_or_exit _ _ _ _ _ _ w0) as [[batch | s] w1]; [| done].
  apply IH.
Qed.

Lemma load_batches_app (context : DataContext) (usage_event checkpoint_file : string)
    (entries more : list batch_entry) (batches_to_validate : list N) (w : world) :
  load_batches env context usage_event checkpoint_file (entries ++ more)
    batches_to_validate w
  = match load_batches env context usage_event checkpoint_file entries
            batches_to_validate w with
    | (Return assets, w1) =>
        load_batches env context usage_event checkpoint_file more assets w1
    | (Raise s, w1) => (Raise s, w1)
    end.
Proof.
  revert batches_to_validate w.
  induction entries as [| entry entries IH]; intros batches_to_validate w; simpl;
    [done |].
  unfold bind.
  destruct (_validate_at_least_one_suite_is_listed _ _ _ _ w) as [[[] | s] w0]; [| done].
  destruct (load_suites _ _ _ _ _ _ _ w0) as [[assets | s] w1]; [| done].
  apply IH.
Qed.

(** C7. [checkpoint_new] rejects the name of a checkpoint the context
    already lists, and [checkpoint_run] rejects a batch entry without suite
    names: the process ends with a failure message and status 1, and
    nothing happens after what came before the check but the message and
    the usage statistics, so no file is written and no batch is loaded for
    that entry. *)
Theorem rejected_before_any_effect :
  (∀ (checkpoint suite : string) (directory datasource : pyval) (w : world)
     (context : DataContext),
      load_data_context_with_error_handling env directory = Return context →
      checkpoint ∈ list_checkpoints context →
      ∃ message,
        checkpoint_new env checkpoint suite directory datasource w
        = (Raise (SystemExit 1),
           after w [Message message; UsageMessage "cli.checkpoint.new" false]))
  ∧ (∀ (checkpoint : string) (directory : pyval) (w w1 : world) (context : DataContext)
       (config : checkpoint_config) (before rest : list batch_entry)
       (entry : batch_entry) (assets : list N),
      load_data_context_with_error_handling env directory = Return context →
      load_checkpoint env context checkpoint "cli.checkpoint.run" = Return config →
      batches config = before ++ entry :: rest →
      expectation_suite_names entry = [] →
      load_batches env context "cli.checkpoint.run" (checkpoint_file_of checkpoint)
        before [] w = (Return assets, w1) →
      ∃ message,
        checkpoint_run env checkpoint directory w
        = (Raise (SystemExit 1),
           after w1 [Message message; UsageMessage "cli.checkpoint.run" false])).
Proof.
  split.
  - intros checkpoint suite directory datasource w context Hcontext Hexists.
    eexists. unfold checkpoint_new.
    unfold bind at 1, from_toolkit at 1, lift at 1. rewrite Hcontext.
    unfold bind at 1, _verify_checkpoint_does_not_exist.
    rewrite bool_decide_eq_true_2 by done.
    unfold exit_with_failure_message_and_stats, bind, cli_message,
      send_usage_message, sys_exit, raise.
    by rewrite !emit_after, !after_after.
  - intros checkpoint directory w w1 context config before rest entry assets
      Hcontext Hconfig Hbatches Hempty Hbefore.
    eexists. rewrite (checkpoint_run_loop _ _ _ context config) by done.
    rewrite Hbatches, load_batches_app, Hbefore. simpl.
    unfold bind at 1, _validate_at_least_one_suite_is_listed. rewrite Hempty.
    unfold exit_with_failure_message_and_stats, bind, cli_message,
      send_usage_message, sys_exit, raise.
    by rewrite !emit_after, !after_after.
Qed.


Lemma _validate_listed (context : DataContext) (batch : batch_entry)
    (checkpoint_file : string) (w : world) :
  expectation_suite_names batch ≠ [] →
  _validate_at_least_one_suite_is_listed env context batch checkpoint_file w
  = (Return tt, w).
Proof.
  unfold _validate_at_least_one_suite_is_listed.
  by destruct (expectation_suite_names batch).
Qed.

(** An exception of another class propagates out of [load_batch_or_exit]. *)
Lemma load_batch_or_exit_propagates (context : DataContext) (usage_event : string)
    (suite : ExpectationSuite) (kwargs : dict) (checkpoint_file : string)
    (e : pyexn) (w : world) :
  load_batch env context suite kwargs = Raise e →
  isinstance_any e (caught_while_loading env) = false →
  load_batch_or_exit env context usage_event suite kwargs checkpoint_file w
  = (Raise (Error e), after w [LoadBatch suite kwargs]).
Proof.
  intros Hraise Hclass. unfold load_batch_or_exit, bind.
  by rewrite emit_after, Hraise, Hclass.
Qed.


(** Writing the script changes the file system at one path, if at all. *)
Lemma _write_checkpoint_script_to_disk_files
    (context_directory checkpoint_name script_path : string) (w w' : world)
    (r : outcome signal unit) :
  _write_checkpoint_script_to_disk env context_directory checkpoint_name script_path w
  = (r, w') →
  trace w' = trace w
  ∧ (files w' = files w
     ∨ ∃ code, r = Return tt
         ∧ files w' = <[ abspath env (abspath env script_path) := File code ]> (files w)).
Proof.
  unfold _write_checkpoint_script_to_disk, _load_script_template, from_library,
    write_file, get_world, modify, raise, lift.
  unfold bind.
  destruct (load_script_template env) as [template | e]; [| intros [= <- <-]; auto].
  destruct (format2 env template _ _) as [script | e]; [| intros [= <- <-]; auto].
  destruct (lint_code env script) as [code | e]; [| intros [= <- <-]; auto].
  destruct (files w !! abspath env (abspath env script_path)) as [[content |] |];
    simpl; intros [= <- <-]; simpl; eauto.
Qed.

(** C10. [checkpoint_script] never overwrites a script: when a file is at
    the path of [run_<checkpoint>.py], the process ends with a failure
    message and status 1 and the file system is as before; and whenever the
    command changes the file system, no file was at that path, and the
    change is the one script it wrote. *)
Theorem checkpoint_script_never_overwrites (checkpoint : string) (directory : pyval)
    (w : world) (context : DataContext) (config : checkpoint_config) :
  load_data_context_with_error_handling env directory = Return context →
  load_checkpoint env context checkpoint "cli.checkpoint.script" = Return config →
  (∀ content,
      files w !! abspath env (script_path_of context checkpoint) = Some (File content) →
      ∃ message,
        checkpoint_script env checkpoint directory w
        = (Raise (SystemExit 1),
           after w [Message message; UsageMessage "cli.checkpoint.script" false]))
  ∧ (∀ r w',
      checkpoint_script env checkpoint directory w = (r, w') →
      files w' ≠ files w →
      (∀ content,
          files w !! abspath env (script_path_of context checkpoint)
          ≠ Some (File content))
      ∧ ∃ code,
          files w'
          = <[ abspath env (abspath env (script_path_of context checkpoint))
               := File code ]> (files w)).
Proof.
  intros Hcontext Hconfig.
  assert (Hstart : checkpoint_script env checkpoint directory w
    = match files w !! abspath env (script_path_of context checkpoint) with
      | Some (File _) =>
          exit_with_failure_message_and_stats context "cli.checkpoint.script"
            (script_exists_message ("run_" +:+ checkpoint +:+ ".py")
               (script_path_of context checkpoint)) w
      | _ =>
          match _write_checkpoint_script_to_disk env (root_directory context)
                  checkpoint (script_path_of context checkpoint) w with
          | (Return _, w1) =>
              (Return tt, after w1 [Message (script_created_message checkpoint);
                                    UsageMessage "cli.checkpoint.script" true])
          | (Raise s, w1) => (Raise s, w1)
          end
      end).
  { unfold checkpoint_script.
    unfold bind at 1, from_toolkit at 1, lift at 1. rewrite Hcontext.
    unfold bind at 1, from_toolkit at 1, lift at 1. rewrite Hconfig.
    unfold bind at 1, isfile, bind at 1, get_world, ret.
    destruct (files w !! _) as [[content |] |]; try done;
      unfold bind at 1; unfold bind at 1;
      destruct (_write_checkpoint_script_to_disk _ _ _ _ w) as [[[] | s] w1];
      try done;
      unfold bind, cli_message, send_usage_message;
      by rewrite !emit_after, !after_after. }
  split.
  - intros content Hfile. eexists. rewrite Hstart, Hfile.
    unfold exit_with_failure_message_and_stats, bind, cli_message,
      send_usage_message, sys_exit, raise.
    by rewrite !emit_after, !after_after.
  - intros r w' Hrun Hchanged. rewrite Hstart in Hrun.
    assert (Hnone : ∀ content,
      files w !! abspath env (script_path_of context checkpoint) ≠ Some (File content)).
    { intros content Hfile. rewrite Hfile in Hrun.
      unfold exit_with_failure_message_and_stats, bind, cli_message,
        send_usage_message, sys_exit, raise in Hrun.
      rewrite !emit_after in Hrun. by injection Hrun as _ <-. }
    split; [done |].
    destruct (files w !! abspath env (script_path_of context checkpoint))
      as [[content |] |] eqn:Hfile; [by destruct (Hnone content) | ..];
      destruct (_write_checkpoint_script_to_disk _ _ _ _ w) as [[[] | s] w1] eqn:Hwrite;
      apply _write_checkpoint_script_to_disk_files in Hwrite as [_ [Hsame | [code [_ Hnew]]]];
      injection Hrun as _ <-; simpl in *; try congruence; by exists code.
Qed.

End commands.


(** *** The commands on examples *)

Lemma checkpoint_run_loads_every_pair_witness :
  let visits := {[ "path" := VStr "visits.csv" ]} : dict in
  let users := {[ "path" := VStr "users.csv" ]} : dict in
  checkpoint_run sample_env "nightly" VNone empty_world
  = (Raise (SystemExit 0),
     after empty_world
       [ LoadBatch {| expectation_suite_name := "visits.warning" |} visits;
         LoadBatch {| expectation_suite_name := "visits.critical" |} visits;
         LoadBatch {| expectation_suite_name := "users.warning" |} users;
         RunValidationOperator "action_list_operator" [14%N; 15%N; 13%N];
         Message "Validation Succeeded!";
         UsageMessage "cli.checkpoint.run" true ]).
Proof.
  intros visits users.
  apply (checkpoint_run_loads_every_pair sample_env "nightly" VNone empty_world
           sample_context sample_config
           [ {| loaded_suite := {| expectation_suite_name := "visits.warning" |};
                loaded_kwargs := visits; loaded_asset := 14 |};
             {| loaded_suite := {| expectation_suite_name := "visits.critical" |};
                loaded_kwargs := visits; loaded_asset := 15 |};
             {| loaded_suite := {| expectation_suite_name := "users.warning" |};
                loaded_kwargs := users; loaded_asset := 13 |} ]
           {| success := true |}).
  - reflexivity.
  - reflexivity.
  - repeat (apply List.Forall_cons; [discriminate |]). apply List.Forall_nil.
  - unfold suite_pairs. simpl.
    repeat (apply List.Forall2_cons; [repeat split |]). apply List.Forall2_nil.
  - reflexivity.
Defined.

Lemma checkpoint_exit_codes_witness :
  exit_status (checkpoint_run sample_env "nightly" VNone empty_world).1 = 0%Z
  ∧ exit_status
      (checkpoint_list
         (sample_env_with {| root_directory := "/project/great_expectations";
                             CHECKPOINTS_DIR := "checkpoints";
                             GE_UNCOMMITTED_DIR := "uncommitted";
                             list_checkpoints := [];
                             run_validation_operator :=
                               run_validation_operator sample_context |}
            sample_config (λ _ _ _, Return 1%N))
         VNone empty_world).1 = 0%Z.
Proof.
  split.
  - refine (proj2 (proj1 (checkpoint_exit_codes sample_env) "nightly" VNone empty_world
                     (load_batches sample_env sample_context "cli.checkpoint.run"
                        (checkpoint_file_of "nightly") (batches sample_config) []
                        empty_world).2
                     sample_context sample_config [14%N; 15%N; 13%N]
                     {| success := true |} _ _ _ _)); reflexivity.
  - refine (proj2 (proj2 (checkpoint_exit_codes _) VNone empty_world _ _ _));
      reflexivity.
Defined.

Lemma rejected_before_any_effect_witness :
  (∃ message,
      checkpoint_new sample_env "nightly" "visits.warning" VNone VNone empty_world
      = (Raise (SystemExit 1),
         after empty_world [Message message; UsageMessage "cli.checkpoint.new" false]))
  ∧ (∃ message,
      checkpoint_run unlisted_env "nightly" VNone empty_world
      = (Raise (SystemExit 1),
         after (after empty_world
                  [LoadBatch {| expectation_suite_name := "visits.warning" |}
                     {[ "path" := VStr "visits.csv" ]}])
           [Message message; UsageMessage "cli.checkpoint.run" false])).
Proof.
  split.
  - apply (proj1 (rejected_before_any_effect sample_env) "nightly" "visits.warning"
             VNone VNone empty_world sample_context).
    + reflexivity.
    + apply list_elem_of_here.
  - apply (proj2 (rejected_before_any_effect unlisted_env) "nightly" VNone empty_world
             _ sample_context unlisted_config
             [ {| batch_kwargs := {[ "path" := VStr "visits.csv" ]};
                  expectation_suite_names := ["visits.warning"] |} ]
             []
             {| batch_kwargs := {[ "path" := VStr "users.csv" ]};
                expectation_suite_names := [] |}
             [1%N]).
    + reflexivity.
    + reflexivity.
    + reflexivity.
    + reflexivity.
    + reflexivity.
Defined.

(** C8, as stated, fails: the error of the storage client raised while
    [users.csv] is loaded is none of the classes of the [except] clause; it
    propagates out of [checkpoint_run] as an exception, and no message is
    printed for the user. *)
Lemma checkpoint_run_storage_error_propagates :
  let visits := {[ "path" := VStr "visits.csv" ]} : dict in
  let users := {[ "path" := VStr "users.csv" ]} : dict in
  load_batch denied_env sample_context {| expectation_suite_name := "users.warning" |} users
  = Raise access_denied
  ∧ checkpoint_run denied_env "nightly" VNone empty_world
    = (Raise (Error access_denied),
       after empty_world
         [ LoadBatch {| expectation_suite_name := "visits.warning" |} visits;
           LoadBatch {| expectation_suite_name := "visits.critical" |} visits;
           LoadBatch {| expectation_suite_name := "users.warning" |} users ]).
Proof. split; vm_compute; reflexivity. Qed.


Lemma checkpoint_script_never_overwrites_witness :
  let script := "/project/great_expectations/uncommitted/run_nightly.py" in
  let w := {| files := {[ script := File "print('mine')" ]}; trace := [] |} in
  (∃ message,
      checkpoint_script sample_env "nightly" VNone w
      = (Raise (SystemExit 1),
         after w [Message message; UsageMessage "cli.checkpoint.script" false]))
  ∧ (∃ code,
      files (checkpoint_script sample_env "nightly" VNone empty_world).2
      = <[ script := File code ]> ∅).
Proof.
  intros script w.
  assert (Hcontext :
    load_data_context_with_error_handling sample_env VNone = Return sample_context)
    by reflexivity.
  assert (Hconfig :
    load_checkpoint sample_env sample_context "nightly" "cli.checkpoint.script"
    = Return sample_config) by reflexivity.
  split.
  - apply (proj1 (checkpoint_script_never_overwrites sample_env "nightly" VNone w
                    sample_context sample_config Hcontext Hconfig)
             "print('mine')").
    reflexivity.
  - destruct (checkpoint_script sample_env "nightly" VNone empty_world)
      as [r w'] eqn:Hrun.
    apply (proj2 (checkpoint_script_never_overwrites sample_env "nightly" VNone
                    empty_world sample_context sample_config Hcontext Hconfig)
             r w' Hrun).
    intros Hsame. vm_compute in Hrun. injection Hrun as _ <-.
    apply (f_equal (λ m : gmap string node, m !! script)) in Hsame.
    vm_compute in Hsame. discriminate Hsame.
Defined.

End CheckpointTheory.

(** ** More on the pandas datasource *)

Module PandasMore.
Import Pandas.

Section get_batch.

Variable env : environment.




(** X2. With a ["path"] and a ["reader_method"] that pandas does not have,
    [get_batch] raises [BatchKwargsError] naming the method, before any
    call is made. *)
Theorem get_batch_unknown_reader_method (self : PandasDatasource) (bk : dict)
    (bp path : pyval) (m : string) (w : list call) :
  bk !! "path" = Some path →
  bk !! "reader_method" = Some (VStr m) →
  pd_hasattr env m = false →
  get_batch env self bk bp w
  = (Raise (BatchKwargsError ("Unable to find reader_method " +:+ m +:+ " in pandas.")
              {[ "reader_method" := VStr m ]}), w).
Proof.
  intros Hpath Hmethod Hhas. unfold get_batch, load_data, bind, lift, dict_get.
  rewrite Hpath, Hmethod. unfold _get_reader_fn. simpl. by rewrite Hhas.
Qed.


Lemma guess_csv_gz (stem : string) :
  guess_reader_method_from_path (VStr (stem +:+ ".csv.gz"))
  = Return (guess "read_csv" (Some {[ "compression" := VStr "gzip" ]})).
Proof.
  unfold guess_reader_method_from_path, guess_reader_method_from_path_str.
  rewrite ?endswith_app. rewrite ?endswith_other by reflexivity. reflexivity.
Qed.

Lemma _get_reader_fn_csv_gz (stem : string) :
  pd_hasattr env "read_csv" = true → pd_callable env "read_csv" = true →
  _get_reader_fn env VNone (VStr (stem +:+ ".csv.gz"))
  = Return {| rf_name := "read_csv";
              rf_keywords := {[ "compression" := VStr "gzip" ]} |}.
Proof.
  intros Hhas Hcallable. unfold _get_reader_fn.
  change (is_None VNone && is_None (VStr (stem +:+ ".csv.gz"))) with false.
  change (is_None VNone) with true. cbv iota.
  rewrite guess_csv_gz.
  change (dict_get (guess "read_csv" (Some {[ "compression" := VStr "gzip" ]}))
            "reader_method") with (VStr "read_csv").
  change (dict_get (guess "read_csv" (Some {[ "compression" := VStr "gzip" ]}))
            "reader_options") with (VDict {[ "compression" := VStr "gzip" ]}).
  cbv iota beta. rewrite Hhas.
  change (size ({[ "compression" := VStr "gzip" ]} : dict) =? 0)%nat with false.
  cbv iota. by rewrite Hcallable.
Qed.

(** X4. For a path that ends with ".csv.gz" and no reader method, the one
    call is [read_csv] on the path with the reader options of the batch
    kwargs and ["compression"] set to ["gzip"], unless the reader options
    have a ["compression"] of their own, which wins. *)
Theorem get_batch_csv_gz (self : PandasDatasource) (bk : dict) (bp : pyval)
    (stem : string) :
  bk !! "path" = Some (VStr (stem +:+ ".csv.gz")) →
  dict_get bk "reader_method" = VNone →
  pd_hasattr env "read_csv" = true → pd_callable env "read_csv" = true →
  reader_options_ok bk →
  ∃ r kwargs,
    get_batch env self bk bp []
    = (r, [CallReader "read_csv" (InPath (VStr (stem +:+ ".csv.gz"))) kwargs])
    ∧ kwargs !! "compression"
      = Some (default (VStr "gzip") (reader_options_of bk !! "compression"))
    ∧ ∀ k, k ≠ "compression" → kwargs !! k = reader_options_of bk !! k.
Proof.
  intros Hpath Hmethod Hhas Hcallable Hok.
  destruct (get_batch env self bk bp []) as [r calls] eqn:Hrun.
  exists r, (reader_options_of bk ∪ {[ "compression" := VStr "gzip" ]}).
  destruct (PandasTheory.get_batch_finish env _ _ _ _ _ _ Hrun) as [loaded [Hload _]].
  unfold load_data in Hload. rewrite Hpath, Hmethod in Hload.
  rewrite _get_reader_fn_csv_gz in Hload by done.
  assert (Hopts : default (VDict ∅) (bk !! "reader_options") = VDict (reader_options_of bk)).
  { unfold reader_options_ok, reader_options_of in *.
    by destruct (bk !! "reader_options") as [[]|]. }
  rewrite Hopts in Hload.
  unfold bind, lift, call_reader in Hload. simpl in Hload.
  rewrite Hcallable in Hload.
  unfold bind, log, modify, propagate, lift, ret in Hload. simpl in Hload.
  split.
  - by destruct (pd_call env _ _ _); simpl in Hload; injection Hload as _ <-.
  - split.
    + rewrite lookup_union. rewrite lookup_singleton_eq.
      by destruct (reader_options_of bk !! "compression").
    + intros k Hk. rewrite lookup_union, lookup_singleton_ne by done.
      by destruct (reader_options_of bk !! k).
Qed.



(** X6. What a returned batch carries besides its data: the name and the
    data context of the datasource, the batch parameters of the call, the
    load time under ["ge_load_time"], no marker but the load time and the
    fingerprint, the fingerprint being the hash of the data; and with a
    ["path"] or an ["s3"] key the batch kwargs are the ones given. *)
Theorem get_batch_carries (self : PandasDatasource) (bk : dict) (bp : pyval)
    (w w' : list call) (b : Batch) :
  get_batch env self bk bp w = (Return b, w') →
  datasource_name b = name self
  ∧ data_context b = _data_context self
  ∧ batch_parameters b = bp
  ∧ batch_markers b !! "ge_load_time" = Some (VStr (utcnow env))
  ∧ (∀ k, is_Some (batch_markers b !! k) →
       k = "ge_load_time" ∨ k = "pandas_data_fingerprint")
  ∧ (∀ v, batch_markers b !! "pandas_data_fingerprint" = Some v →
       ∃ h, v = VStr h ∧ hash_pandas_dataframe env (data b) = Return h)
  ∧ (is_Some (bk !! "path") ∨ is_Some (bk !! "s3") → batch_kwargs b = bk).
Proof.
  intros Hrun.
  assert (Hkwargs : is_Some (bk !! "path") ∨ is_Some (bk !! "s3") → batch_kwargs b = bk).
  { intros Hkey.
    destruct (PandasTheory.get_batch_finish env _ _ _ _ _ _ Hrun)
      as [loaded [Hload Hfinish]].
    destruct loaded as [[df bk'] | e]; [| done].
    destruct Hfinish as [[e [=]] | [b' [usage [[= <-] [_ [-> _]]]]]].
    destruct (bk !! "path") as [path |] eqn:Hpath.
    - destruct (PandasTheory.load_data_path env _ _ _ _ _ _ _ Hpath Hload)
        as [[_ [[e [=]] | [rest [kw [=]]]]] | [m [kw [_ Hr]]]].
      destruct (pd_call env m (InPath path) kw); [by injection Hr as _ -> | done].
    - destruct Hkey as [[? [=]] | [raw_url Hs3]].
      destruct (PandasTheory.load_data_s3 env _ _ _ _ _ _ _ Hpath Hs3 Hload)
        as (calls' & _ & _ & _ & Hok).
      by destruct (Hok df bk' eq_refl). }
  revert Hrun Hkwargs. unfold get_batch, bind at 1.
  destruct (load_data _ _ _ _ w) as [[[df bk'] | e] w1]; [| done].
  unfold bind, propagate, lift, ret. simpl.
  destruct (memory_usage_sum env df) as [usage | e]; simpl; [| done].
  destruct (usage <? HASH_THRESHOLD)%Z.
  - destruct (hash_pandas_dataframe env df) as [h | e] eqn:Hhash; simpl; [| done].
    intros [= <-] Hkw. simpl in *.
    split; [done |]. split; [done |]. split; [done |].
    split; [by rewrite lookup_insert_ne |].
    split; [| split; [| done]].
    + intros k. rewrite lookup_insert. case_decide; [auto |].
      rewrite lookup_singleton. case_decide; [auto |]. by intros [? [=]].
    + rewrite lookup_insert_eq. intros v [= <-]. by exists h.
  - intros [= <-] Hkw. simpl in *.
    split; [done |]. split; [done |]. split; [done |].
    split; [by rewrite lookup_singleton_eq |].
    split; [| split; [| done]].
    + intros k. rewrite lookup_singleton. case_decide; [auto |]. by intros [? [=]].
    + by rewrite lookup_singleton_ne.
Qed.

(** X7. With an ["s3"] key and no ["path"], when [import boto3] fails:
    an [ImportError] becomes the [BatchKwargsError] about boto3, carrying
    the batch kwargs; any other exception propagates; nothing is fetched. *)
Theorem get_batch_s3_import_fails (self : PandasDatasource) (bk : dict)
    (bp raw_url : pyval) (e : pyexn) (w : list call) :
  bk !! "path" = None → bk !! "s3" = Some raw_url →
  import_boto3 env = Raise e →
  get_batch env self bk bp w
  = (Raise (if isinstance e "ImportError"
            then BatchKwargsError "Unable to load boto3 client to read s3 asset." bk
            else Propagated e), w).
Proof.
  intros Hpath Hs3 Himport. unfold get_batch, load_data, bind, load_boto3_client.
  by rewrite Hpath, Hs3, Himport.
Qed.

(** X8. In the object-storage strategy the reader is determined from the
    key of the url, and only after the object was requested: when no
    reader can be determined, [get_batch] raises what [_get_reader_fn]
    raises, the client was created and the object requested, and its body
    was not read. *)
Theorem get_batch_s3_fetches_before_reader (self : PandasDatasource) (bk : dict)
    (bp raw_url : pyval) (options : dict) (s3 s3_object : N) (bucket key : string)
    (e : ds_exn) :
  bk !! "path" = None → bk !! "s3" = Some raw_url →
  import_boto3 env = Return tt →
  _boto3_options self = VDict options →
  boto3_client env options = Return s3 →
  S3Url env raw_url = Return (bucket, key) →
  s3_get_object env s3 bucket key = Return s3_object →
  _get_reader_fn env (dict_get bk "reader_method") (VStr key) = Raise e →
  get_batch env self bk bp []
  = (Raise e, [CallBoto3Client options; CallGetObject bucket key]).
Proof.
  intros Hpath Hs3 Himport Hoptions Hclient Hurl Hobject Hfn.
  unfold get_batch, load_data, bind, load_boto3_client.
  rewrite Hpath, Hs3, Himport, Hoptions.
  unfold bind, log, modify, ret, propagate, lift. simpl.
  rewrite Hclient, Hurl. simpl. rewrite Hobject. simpl. by rewrite Hfn.
Qed.

End get_batch.

(** X9. What [guess_reader_method_from_path] returns always names one of
    five pandas readers under ["reader_method"], has no other key but
    ["reader_options"], and has reader options only for [read_csv], the
    gzip compression. *)
Theorem guess_reader_method_from_path_range (path : pyval) (d : dict) :
  guess_reader_method_from_path path = Return d →
  ∃ m, d !! "reader_method" = Some (VStr m)
       ∧ m ∈ ["read_csv"; "read_parquet"; "read_excel"; "read_json"; "read_pickle"]
       ∧ (d !! "reader_options" = None
          ∨ (m = "read_csv"
             ∧ d !! "reader_options" = Some (VDict {[ "compression" := VStr "gzip" ]})))
       ∧ ∀ k, is_Some (d !! k) → k = "reader_method" ∨ k = "reader_options".
Proof.
  destruct path as [| | |p| | | |]; simpl; try discriminate.
  unfold guess_reader_method_from_path_str.
  assert (Hplain : ∀ m,
    m ∈ ["read_csv"; "read_parquet"; "read_excel"; "read_json"; "read_pickle"] →
    ∃ m', guess m None !! "reader_method" = Some (VStr m')
       ∧ m' ∈ ["read_csv"; "read_parquet"; "read_excel"; "read_json"; "read_pickle"]
       ∧ (guess m None !! "reader_options" = None
          ∨ (m' = "read_csv"
             ∧ guess m None !! "reader_options"
               = Some (VDict {[ "compression" := VStr "gzip" ]})))
       ∧ ∀ k, is_Some (guess m None !! k) → k = "reader_method" ∨ k = "reader_options").
  { intros m Hm. exists m. unfold guess. rewrite lookup_singleton_eq.
    split; [done |]. split; [done |]. split; [left; by rewrite lookup_singleton_ne |].
    intros k. rewrite lookup_singleton. case_decide; [auto |]. by intros [? [=]]. }
  repeat match goal with
         | |- context [if ?c then _ else _] => destruct c
         end;
    try discriminate; intros [= <-];
    try (apply Hplain; rewrite !elem_of_cons; tauto).
  exists "read_csv". unfold guess.
  rewrite lookup_insert_ne by done. rewrite lookup_singleton_eq, lookup_insert_eq.
  split; [done |]. split; [rewrite !elem_of_cons; tauto |]. split; [by right |].
  intros k. rewrite lookup_insert. case_decide; [auto |].
  rewrite lookup_singleton. case_decide; [auto |]. by intros [? [=]].
Qed.

End PandasMore.

Module PandasOptions.
Import Pandas.

Section process_batch_parameters.

Variable env : environment.

(** One [if options: ... update(options)] step of
    [process_batch_parameters]. *)
Lemma update_step (bk : dict) (options : pyval) (w : list call) :
  reader_options_ok bk → is_options options →
  ∃ given bk',
    truth options = Return given
    ∧ (if given then update_reader_options bk options else ret bk) w = (Return bk', w)
    ∧ reader_options_ok bk'
    ∧ reader_options_of bk' = options_of options ∪ reader_options_of bk
    ∧ ∀ k, k ≠ "reader_options" → bk' !! k = bk !! k.
Proof.
  intros Hok [-> | [d ->]]; simpl.
  - exists false, bk. by rewrite (left_id_L ∅ (∪)).
  - destruct (size d =? 0)%nat eqn:Hsize; simpl.
    + apply Nat.eqb_eq, map_size_empty_inv in Hsize as ->.
      exists false, bk. by rewrite (left_id_L ∅ (∪)).
    + destruct (PandasTheory.update_reader_options_spec bk d w Hok)
        as (bk' & ? & ? & ? & ?).
      by exists true, bk'.
Qed.

(** One [batch_kwargs["reader_options"]["nrows"] = ...] step. *)
Lemma nrows_step (bk : dict) (limit : pyval) (set : bool) (w : list call) :
  reader_options_ok bk →
  ∃ bk',
    (if set then set_nrows bk limit else ret bk) w = (Return bk', w)
    ∧ reader_options_ok bk'
    ∧ reader_options_of bk'
      = (if set then <[ "nrows" := limit ]> (reader_options_of bk)
         else reader_options_of bk)
    ∧ ∀ k, k ≠ "reader_options" → bk' !! k = bk !! k.
Proof.
  intros Hok. destruct set; [by apply PandasTheory.set_nrows_spec | by exists bk].
Qed.

(** What [process_batch_parameters] returns when the reader options of the
    datasource and of the call are dictionaries or [None]. *)
Lemma process_batch_parameters_result (self : PandasDatasource)
    (reader_method reader_options limit dataset_options : pyval) (base : dict)
    (limited has_method : bool) (w : list call) :
  super_process_batch_parameters env dataset_options = Return base →
  reader_options_ok base →
  is_options (_reader_options self) → is_options reader_options →
  truth (_limit self) = Return limited →
  truth (_reader_method self) = Return has_method →
  ∃ bk,
    process_batch_parameters env self reader_method reader_options limit
      dataset_options w = (Return bk, w)
    ∧ reader_options_of bk
      = (let merged :=
           options_of reader_options
           ∪ (options_of (_reader_options self) ∪ reader_options_of base) in
         let merged := if limited then <[ "nrows" := _limit self ]> merged else merged in
         if is_None limit then merged else <[ "nrows" := limit ]> merged)
    ∧ bk !! "reader_method"
      = (if is_None reader_method then
           if has_method then Some (_reader_method self) else base !! "reader_method"
         else Some reader_method)
    ∧ ∀ k, k ≠ "reader_options" → k ≠ "reader_method" → bk !! k = base !! k.
Proof.
  intros Hsuper Hbase Hconfigured Hgiven Hlimited Hmethod.
  unfold process_batch_parameters.
  rewrite Hsuper, Hlimited, Hmethod.
  unfold bind at 1, propagate at 1, lift at 1, propagated at 1.
  destruct (update_step base (_reader_options self) w Hbase Hconfigured)
    as (t1 & bk1 & -> & Hrun1 & Hok1 & Hof1 & Hkeys1).
  unfold bind at 1, propagate at 1, lift at 1, propagated at 1.
  unfold bind at 1. rewrite Hrun1.
  destruct (update_step bk1 reader_options w Hok1 Hgiven)
    as (t2 & bk2 & -> & Hrun2 & Hok2 & Hof2 & Hkeys2).
  unfold bind at 1, propagate at 1, lift at 1, propagated at 1.
  unfold bind at 1. rewrite Hrun2.
  unfold bind at 1, propagate at 1, lift at 1, propagated at 1.
  destruct (nrows_step bk2 (_limit self) limited w Hok2)
    as (bk3 & Hrun3 & Hok3 & Hof3 & Hkeys3).
  unfold bind at 1. rewrite Hrun3.
  destruct (nrows_step bk3 limit (negb (is_None limit)) w Hok3)
    as (bk4 & Hrun4 & Hok4 & Hof4 & Hkeys4).
  assert (Hrun4' :
    (if is_None limit then ret bk3 else set_nrows bk3 limit) w = (Return bk4, w))
    by (by destruct (is_None limit)).
  unfold bind at 1. rewrite Hrun4'.
  unfold bind, propagate, lift, propagated, ret.
  eexists. split; [done |].
  assert (Hother : ∀ k, k ≠ "reader_method" →
    (if is_None reader_method
     then if has_method then <[ "reader_method" := _reader_method self ]> bk4 else bk4
     else <[ "reader_method" := reader_method ]>
            (if has_method then <[ "reader_method" := _reader_method self ]> bk4 else bk4))
    !! k = bk4 !! k).
  { intros k Hk. destruct (is_None reader_method), has_method;
      by rewrite ?lookup_insert_ne. }
  split; [| split].
  - unfold reader_options_of at 1. rewrite Hother by done.
    fold (reader_options_of bk4).
    rewrite Hof4, Hof3, Hof2, Hof1. by destruct (is_None limit).
  - destruct (is_None reader_method), has_method;
      rewrite ?lookup_insert_eq; try done;
      by rewrite ?Hkeys4, ?Hkeys3, ?Hkeys2, ?Hkeys1.
  - intros k Hk1 Hk2. rewrite Hother by done.
    by rewrite Hkeys4, Hkeys3, Hkeys2, Hkeys1.
Qed.


(** First of three optional values. *)
Lemma lookup_union3 (a b c : dict) (k : string) :
  (a ∪ (b ∪ c)) !! k
  = match a !! k with
    | Some v => Some v
    | None => match b !! k with Some v => Some v | None => c !! k end
    end.
Proof.
  rewrite !lookup_union. by destruct (a !! k), (b !! k), (c !! k).
Qed.

(** X10. The reader options [process_batch_parameters] returns, key by
    key: for a key other than ["nrows"], the value of the call, else the
    one of the datasource, else the one of the base class; for ["nrows"],
    the limit of the call, else the limit of the datasource when it is not
    zero, which wins over an ["nrows"] among the reader options of the call,
    else the value the reader options give. *)
Theorem process_batch_parameters_precedence (self : PandasDatasource)
    (reader_method reader_options limit dataset_options : pyval) (base : dict)
    (limited has_method : bool) (w : list call) :
  super_process_batch_parameters env dataset_options = Return base →
  reader_options_ok base →
  is_options (_reader_options self) → is_options reader_options →
  truth (_limit self) = Return limited →
  truth (_reader_method self) = Return has_method →
  ∃ bk,
    process_batch_parameters env self reader_method reader_options limit
      dataset_options w = (Return bk, w)
    ∧ (∀ k, k ≠ "nrows" →
         reader_options_of bk !! k
         = match options_of reader_options !! k with
           | Some v => Some v
           | None =>
               match options_of (_reader_options self) !! k with
               | Some v => Some v
               | None => reader_options_of base !! k
               end
           end)
    ∧ reader_options_of bk !! "nrows"
      = (if is_None limit then
           if limited then Some (_limit self)
           else match options_of reader_options !! "nrows" with
                | Some v => Some v
                | None =>
                    match options_of (_reader_options self) !! "nrows" with
                    | Some v => Some v
                    | None => reader_options_of base !! "nrows"
                    end
                end
         else Some limit).
Proof.
  intros Hsuper Hbase Hconfigured Hgiven Hlimited Hmethod.
  destruct (process_batch_parameters_result self reader_method reader_options limit
              dataset_options base limited has_method w)
    as (bk & Hrun & Hof & _); try done.
  exists bk. split; [done |]. rewrite Hof. simpl. split.
  - intros k Hk. destruct (is_None limit), limited;
      rewrite ?lookup_insert_ne by done; apply lookup_union3.
  - destruct (is_None limit), limited;
      rewrite ?lookup_insert_eq; try done; apply lookup_union3.
Qed.

(** X11. The reader method [process_batch_parameters] returns is the one
    of the call, else the one of the datasource when it is not empty, else
    the one of the base class; and every key of the base class other than
    ["reader_options"] and ["reader_method"] comes back as it was. *)
Theorem process_batch_parameters_reader_method (self : PandasDatasource)
    (reader_method reader_options limit dataset_options : pyval) (base : dict)
    (limited has_method : bool) (w : list call) :
  super_process_batch_parameters env dataset_options = Return base →
  reader_options_ok base →
  is_options (_reader_options self) → is_options reader_options →
  truth (_limit self) = Return limited →
  truth (_reader_method self) = Return has_method →
  ∃ bk,
    process_batch_parameters env self reader_method reader_options limit
      dataset_options w = (Return bk, w)
    ∧ bk !! "reader_method"
      = (if is_None reader_method then
           if has_method then Some (_reader_method self) else base !! "reader_method"
         else Some reader_method)
    ∧ ∀ k, k ≠ "reader_options" → k ≠ "reader_method" → bk !! k = base !! k.
Proof.
  intros Hsuper Hbase Hconfigured Hgiven Hlimited Hmethod.
  destruct (process_batch_parameters_result self reader_method reader_options limit
              dataset_options base limited has_method w)
    as (bk & Hrun & _ & Hrm & Hkeys); try done.
  by exists bk.
Qed.

End process_batch_parameters.

Section constructor.

Variable env : environment.

Lemma update_configuration_options (configuration : dict) (options : pyval)
    (w : list call) :
  is_options options →
  update_configuration configuration options w
  = (Return (options_of options ∪ configuration), w).
Proof.
  intros [-> | [d ->]]; simpl; [| done].
  unfold ret. by rewrite (left_id_L ∅ (∪)).
Qed.

(** [build_configuration] on optional dictionaries: the keys of the reader
    options, then the ones of the boto3 options, are spread over the
    configuration; the reader method and the limit are set last. *)
Lemma build_configuration_result
    (data_asset_type batch_kwargs_generators boto3_options
     reader_method reader_options limit : pyval) (kwargs : dict)
    (with_generators : bool) (w : list call) :
  (data_asset_type = VNone ∨ ∃ v, class_config_dump env data_asset_type = Return v) →
  truth batch_kwargs_generators = Return with_generators →
  is_options boto3_options → is_options reader_options →
  ∃ configuration,
    build_configuration env data_asset_type batch_kwargs_generators boto3_options
      reader_method reader_options limit kwargs w = (Return configuration, w)
    ∧ ∀ k, k ≠ "data_asset_type" → k ≠ "batch_kwargs_generators" →
        configuration !! k
        = if bool_decide (k = "limit") && negb (is_None limit) then Some limit
          else if bool_decide (k = "reader_method") && negb (is_None reader_method)
          then Some reader_method
          else (options_of reader_options ∪ (options_of boto3_options ∪ kwargs)) !! k.
Proof.
  intros Hasset Hgenerators Hboto3 Hreader. unfold build_configuration.
  assert (Hfirst : ∃ v,
    (if is_None data_asset_type
     then ret (VDict (<[ "module_name" := VStr "great_expectations.dataset" ]>
                        {[ "class_name" := VStr "PandasDataset" ]}))
     else propagate (class_config_dump env data_asset_type)) w = (Return v, w)).
  { destruct Hasset as [-> | [v Hv]]; [by eexists |].
    destruct (is_None data_asset_type); [by eexists |].
    exists v. unfold propagate, lift. by rewrite Hv. }
  destruct Hfirst as [v Hv]. unfold bind at 1. rewrite Hv.
  rewrite Hgenerators. unfold bind at 1, propagate at 1, lift at 1, propagated at 1.
  unfold bind at 1. rewrite update_configuration_options by done.
  unfold bind at 1. rewrite update_configuration_options by done.
  unfold ret. eexists. split; [done |].
  intros k Hk1 Hk2.
  assert (Hbase : ∀ c : dict,
    (if with_generators then <[ "batch_kwargs_generators" := batch_kwargs_generators ]>
                               (<[ "data_asset_type" := v ]> c)
     else <[ "data_asset_type" := v ]> c) !! k = c !! k).
  { intros c. destruct with_generators; by rewrite ?lookup_insert_ne. }
  assert (Hspread :
    (options_of reader_options
     ∪ (options_of boto3_options
        ∪ (if with_generators
           then <[ "batch_kwargs_generators" := batch_kwargs_generators ]>
                  (<[ "data_asset_type" := v ]> kwargs)
           else <[ "data_asset_type" := v ]> kwargs))) !! k
    = (options_of reader_options ∪ (options_of boto3_options ∪ kwargs)) !! k).
  { by rewrite !lookup_union, Hbase. }
  destruct (is_None limit), (is_None reader_method); simpl;
    rewrite ?andb_false_r, ?andb_true_r;
    repeat case_bool_decide; subst;
    repeat first [rewrite lookup_insert_eq | rewrite lookup_insert_ne by done]; done.
Qed.

(** The fields of the datasource [__init__] builds. *)
Lemma __init___fields
    (nm : string) (data_context data_asset_type batch_kwargs_generators boto3_options
     reader_method reader_options limit : pyval) (kwargs : dict)
    (with_generators : bool) (w : list call) :
  (data_asset_type = VNone ∨ ∃ v, class_config_dump env data_asset_type = Return v) →
  truth batch_kwargs_generators = Return with_generators →
  is_options boto3_options → is_options reader_options →
  let spread := options_of reader_options ∪ (options_of boto3_options ∪ kwargs) in
  ∃ self,
    __init__ env nm data_context data_asset_type batch_kwargs_generators boto3_options
      reader_method reader_options limit kwargs w = (Return self, w)
    ∧ name self = nm
    ∧ _data_context self = data_context
    ∧ _limit self = (if is_None limit then dict_get spread "limit" else limit)
    ∧ _reader_method self
      = (if is_None reader_method then dict_get spread "reader_method" else reader_method)
    ∧ _reader_options self = dict_get spread "reader_options"
    ∧ _boto3_options self = default (VDict ∅) (spread !! "boto3_options").
Proof.
  intros Hasset Hgenerators Hboto3 Hreader spread. unfold __init__.
  destruct (build_configuration_result data_asset_type batch_kwargs_generators
              boto3_options reader_method reader_options limit kwargs
              with_generators w Hasset Hgenerators Hboto3 Hreader)
    as (configuration & Hrun & Hkeys).
  unfold bind. rewrite Hrun. unfold ret. eexists. split; [done |]. simpl.
  unfold dict_get. rewrite !lookup_delete_ne by done. rewrite !Hkeys by done.
  simpl. fold spread.
  split; [done |]. split; [done |].
  split; [by destruct (is_None limit) |].
  split; [by destruct (is_None reader_method) |]. done.
Qed.

(** X12. What a datasource that was constructed holds, for option
    arguments that are dictionaries or [None] and have no key that the
    constructor of the base class is given by name: the limit and the
    reader method are the arguments, when they are given.  But the reader
    options and the boto3 options only spread their keys over the
    configuration, so the default reader options and the boto3 options of
    the datasource are what one of these two dictionaries (the reader
    options first) has under the key ["reader_options"], respectively
    ["boto3_options"]: [None] and the empty dictionary when neither has
    such a key.  (The extra keyword arguments cannot have these keys.) *)
Theorem __init___keeps
    (nm : string) (data_context data_asset_type batch_kwargs_generators boto3_options
     reader_method reader_options limit : pyval) (kwargs : dict)
    (with_generators : bool) (self : PandasDatasource) (w w' : list call) :
  (data_asset_type = VNone ∨ ∃ v, class_config_dump env data_asset_type = Return v) →
  truth batch_kwargs_generators = Return with_generators →
  is_options boto3_options → is_options reader_options →
  (∀ k, k ∈ bound_keywords → kwargs !! k = None) →
  (∀ k, k ∈ super_keywords →
     options_of reader_options !! k = None ∧ options_of boto3_options !! k = None) →
  __init__ env nm data_context data_asset_type batch_kwargs_generators boto3_options
    reader_method reader_options limit kwargs w = (Return self, w') →
  let spread := options_of reader_options ∪ options_of boto3_options in
  _limit self = (if is_None limit then dict_get spread "limit" else limit)
  ∧ _reader_method self
    = (if is_None reader_method then dict_get spread "reader_method" else reader_method)
  ∧ _reader_options self = dict_get spread "reader_options"
  ∧ _boto3_options self = default (VDict ∅) (spread !! "boto3_options").
Proof.
  intros Hasset Hgenerators Hboto3 Hreader Hkwargs _ Hinit spread.
  destruct (__init___fields nm data_context data_asset_type batch_kwargs_generators
              boto3_options reader_method reader_options limit kwargs with_generators w
              Hasset Hgenerators Hboto3 Hreader)
    as (self' & Hinit' & Hname & Hcontext & Hlimit & Hmethod & Hoptions & Hboto3').
  rewrite Hinit in Hinit'. injection Hinit' as <- _.
  assert (Hspread : ∀ k, k ∈ bound_keywords →
    (options_of reader_options ∪ (options_of boto3_options ∪ kwargs)) !! k = spread !! k).
  { intros k Hk. unfold spread. rewrite !lookup_union, (Hkwargs k Hk).
    by destruct (options_of boto3_options !! k). }
  assert (Hin : ∀ k, bool_decide (k ∈ bound_keywords) = true → k ∈ bound_keywords)
    by (intros k; apply bool_decide_eq_true_1).
  unfold dict_get in *.
  rewrite (Hspread "limit") in Hlimit by (by apply Hin).
  rewrite (Hspread "reader_method") in Hmethod by (by apply Hin).
  rewrite (Hspread "reader_options") in Hoptions by (by apply Hin).
  rewrite (Hspread "boto3_options") in Hboto3' by (by apply Hin).
  done.
Qed.



(** X14. An option argument of the constructor that is neither [None] nor
    a dictionary is a [ValueError], and its message speaks of
    [boto3_options] for the reader options as well. *)
Theorem __init___bad_options
    (nm : string) (data_context batch_kwargs_generators boto3_options
     reader_method reader_options limit : pyval) (kwargs : dict)
    (with_generators : bool) (w : list call) :
  truth batch_kwargs_generators = Return with_generators →
  (boto3_options ≠ VNone ∧ ∀ d, boto3_options ≠ VDict d)
  ∨ (is_options boto3_options ∧ reader_options ≠ VNone ∧ ∀ d, reader_options ≠ VDict d) →
  __init__ env nm data_context VNone batch_kwargs_generators boto3_options
    reader_method reader_options limit kwargs w
  = (Raise (Propagated (ValueError
       "boto3_options must be a dictionary of key-value pairs to pass to boto3 upon initialization.")),
     w).
Proof.
  intros Hgenerators Hbad. unfold __init__, build_configuration.
  simpl is_None. cbv iota.
  unfold bind, ret, propagate, lift. rewrite Hgenerators. simpl.
  destruct Hbad as [[Hnone Hdict] | [Hboto3 [Hnone Hdict]]].
  - destruct boto3_options; try done. by destruct (Hdict d).
  - destruct Hboto3 as [-> | [o ->]]; simpl;
      (destruct reader_options; try done; by destruct (Hdict d)).
Qed.

End constructor.

End PandasOptions.

(** ** More on the checkpoint commands *)

Module CheckpointMore.
Import Checkpoint.

Section commands.

Variable env : environment.









(** [checkpoint_run] up to one pair of a batch entry and a suite name. *)
Lemma checkpoint_run_reaches (checkpoint : string) (directory : pyval) (w w1 w2 : world)
    (context : DataContext) (config : checkpoint_config)
    (before rest : list batch_entry) (entry : batch_entry)
    (names_before names_after : list string) (suite_name : string)
    (assets assets' : list N) :
  load_data_context_with_error_handling env directory = Return context →
  load_checkpoint env context checkpoint "cli.checkpoint.run" = Return config →
  batches config = before ++ entry :: rest →
  expectation_suite_names entry = names_before ++ suite_name :: names_after →
  load_batches env context "cli.checkpoint.run" (checkpoint_file_of checkpoint)
    before [] w = (Return assets, w1) →
  load_suites env context "cli.checkpoint.run" (batch_kwargs entry)
    (checkpoint_file_of checkpoint) names_before assets w1 = (Return assets', w2) →
  ∀ s w3,
    load_suites env context "cli.checkpoint.run" (batch_kwargs entry)
      (checkpoint_file_of checkpoint) (suite_name :: names_after) assets' w2
    = (Raise s, w3) →
    checkpoint_run env checkpoint directory w = (Raise s, w3).
Proof.
  intros Hcontext Hconfig Hbatches Hnames Hbefore Hsuites s w3 Hhere.
  rewrite (CheckpointTheory.checkpoint_run_loop env _ _ _ context config) by done.
  rewrite Hbatches, CheckpointTheory.load_batches_app, Hbefore.
  simpl load_batches. unfold bind at 1.
  rewrite CheckpointTheory._validate_listed
    by (rewrite Hnames; by destruct names_before).
  unfold bind at 1.
  by rewrite Hnames, CheckpointTheory.load_suites_app, Hsuites, Hhere.
Qed.

(** X16. An exception raised while a batch is loaded whose class is none
    of the four the [except] clause names propagates out of
    [checkpoint_run]: after the load nothing is printed and no usage
    statistics are sent, the operator is not run, and the process ends with
    status 1 by the exception. *)
Theorem checkpoint_run_propagates (checkpoint : string) (directory : pyval)
    (w w1 w2 : world) (context : DataContext) (config : checkpoint_config)
    (before rest : list batch_entry) (entry : batch_entry)
    (names_before names_after : list string) (suite_name : string)
    (suite : ExpectationSuite) (assets assets' : list N) (e : pyexn) :
  load_data_context_with_error_handling env directory = Return context →
  load_checkpoint env context checkpoint "cli.checkpoint.run" = Return config →
  batches config = before ++ entry :: rest →
  expectation_suite_names entry = names_before ++ suite_name :: names_after →
  load_batches env context "cli.checkpoint.run" (checkpoint_file_of checkpoint)
    before [] w = (Return assets, w1) →
  load_suites env context "cli.checkpoint.run" (batch_kwargs entry)
    (checkpoint_file_of checkpoint) names_before assets w1 = (Return assets', w2) →
  load_expectation_suite env context suite_name "cli.checkpoint.run" = Return suite →
  load_batch env context suite (batch_kwargs entry) = Raise e →
  isinstance_any e (caught_while_loading env) = false →
  checkpoint_run env checkpoint directory w
  = (Raise (Error e), after w2 [LoadBatch suite (batch_kwargs entry)])
  ∧ exit_status (checkpoint_run env checkpoint directory w).1 = 1%Z.
Proof.
  intros Hcontext Hconfig Hbatches Hnames Hbefore Hsuites Hsuite Hbatch Hclass.
  assert (Hrun : checkpoint_run env checkpoint directory w
    = (Raise (Error e), after w2 [LoadBatch suite (batch_kwargs entry)])).
  { eapply checkpoint_run_reaches; try done.
    simpl. unfold bind at 1, from_toolkit, lift. rewrite Hsuite.
    unfold bind at 1.
    by rewrite (CheckpointTheory.load_batch_or_exit_propagates env _ _ _ _ _ e). }
  by rewrite Hrun.
Qed.


(** A [RuntimeError] at the [except] clause around [toolkit.load_batch]. *)
Lemma load_batch_RuntimeError (context : DataContext) (usage_event : string)
    (suite : ExpectationSuite) (kwargs : dict) (checkpoint_file : string)
    (e : pyexn) (w : world) :
  load_batch env context suite kwargs = Raise e →
  isinstance e "RuntimeError" = true →
  isinstance_any e ["FileNotFoundError"; "SQLAlchemyError"; "OSError"; "DataContextError"]
  = false →
  load_batch_or_exit env context usage_event suite kwargs checkpoint_file w
  = if sqlalchemy_installed env then
      (Raise (Error e), after w [LoadBatch suite kwargs])
    else
      (Raise (SystemExit 1),
       after w [LoadBatch suite kwargs;
                Message (load_problem_message env kwargs e checkpoint_file);
                UsageMessage usage_event false]).
Proof.
  intros Hraise Hruntime Hothers. unfold load_batch_or_exit, bind.
  rewrite CheckpointTheory.emit_after, Hraise.
  unfold caught_while_loading, SQLAlchemyError.
  simpl in Hothers. apply orb_false_elim in Hothers as [H1 Hothers].
  apply orb_false_elim in Hothers as [H2 Hothers].
  apply orb_false_elim in Hothers as [H3 Hothers].
  apply orb_false_elim in Hothers as [H4 _].
  destruct (sqlalchemy_installed env); simpl.
  - by rewrite H1, H2, H3, H4.
  - rewrite H1, Hruntime. simpl.
    unfold exit_with_failure_message_and_stats, bind, cli_message,
      send_usage_message, sys_exit, raise.
    by rewrite !CheckpointTheory.emit_after, !CheckpointTheory.after_after.
Qed.

(** X18. [SQLAlchemyError] stands for [RuntimeError] when sqlalchemy cannot
    be imported: a [RuntimeError] that is of none of the other classes,
    raised while a batch is loaded, is then caught and ends
    [checkpoint_run] with the message and status 1, and propagates when
    sqlalchemy is installed. *)
Theorem checkpoint_run_RuntimeError (checkpoint : string) (directory : pyval)
    (w w1 w2 : world) (context : DataContext) (config : checkpoint_config)
    (before rest : list batch_entry) (entry : batch_entry)
    (names_before names_after : list string) (suite_name : string)
    (suite : ExpectationSuite) (assets assets' : list N) (e : pyexn) :
  load_data_context_with_error_handling env directory = Return context →
  load_checkpoint env context checkpoint "cli.checkpoint.run" = Return config →
  batches config = before ++ entry :: rest →
  expectation_suite_names entry = names_before ++ suite_name :: names_after →
  load_batches env context "cli.checkpoint.run" (checkpoint_file_of checkpoint)
    before [] w = (Return assets, w1) →
  load_suites env context "cli.checkpoint.run" (batch_kwargs entry)
    (checkpoint_file_of checkpoint) names_before assets w1 = (Return assets', w2) →
  load_expectation_suite env context suite_name "cli.checkpoint.run" = Return suite →
  load_batch env context suite (batch_kwargs entry) = Raise e →
  isinstance e "RuntimeError" = true →
  isinstance_any e ["FileNotFoundError"; "SQLAlchemyError"; "OSError"; "DataContextError"]
  = false →
  checkpoint_run env checkpoint directory w
  = if sqlalchemy_installed env then
      (Raise (Error e), after w2 [LoadBatch suite (batch_kwargs entry)])
    else
      (Raise (SystemExit 1),
       after w2 [LoadBatch suite (batch_kwargs entry);
                 Message (load_problem_message env (batch_kwargs entry) e
                            (checkpoint_file_of checkpoint));
                 UsageMessage "cli.checkpoint.run" false]).
Proof.
  intros Hcontext Hconfig Hbatches Hnames Hbefore Hsuites Hsuite Hbatch Hruntime Hothers.
  destruct (sqlalchemy_installed env) eqn:Hinstalled;
    eapply checkpoint_run_reaches; try done;
    simpl; unfold bind at 1, from_toolkit, lift; rewrite Hsuite; unfold bind at 1;
    rewrite (load_batch_RuntimeError _ _ _ _ _ e) by done;
    by rewrite Hinstalled.
Qed.

(** X19. A checkpoint without batches loads nothing and still runs its
    validation operator, on no batch: the exit status is the one the
    operator's result on the empty list gives. *)
Theorem checkpoint_run_no_batches (checkpoint : string) (directory : pyval) (w : world)
    (context : DataContext) (config : checkpoint_config) (results : validation_result) :
  load_data_context_with_error_handling env directory = Return context →
  load_checkpoint env context checkpoint "cli.checkpoint.run" = Return config →
  batches config = [] →
  run_validation_operator context (validation_operator_name config) [] = Return results →
  checkpoint_run env checkpoint directory w
  = (Raise (SystemExit (if success results then 0 else 1)),
     after w [RunValidationOperator (validation_operator_name config) [];
              Message (if success results then "Validation Succeeded!"
                       else "Validation Failed!");
              UsageMessage "cli.checkpoint.run" true]).
Proof.
  intros Hcontext Hconfig Hnone Hresults.
  rewrite (CheckpointTheory.checkpoint_run_loop env _ _ _ context config) by done.
  rewrite Hnone. simpl. by rewrite Hresults.
Qed.


Lemma makedirs_ok (path : string) (w : world) :
  (∀ content, files w !! abspath env path ≠ Some (File content)) →
  makedirs env path w
  = (Return tt, {| files := <[ abspath env path := Directory ]> (files w);
                   trace := trace w |}).
Proof.
  intros Hfree. unfold makedirs, bind, get_world, modify.
  destruct (files w !! abspath env path) as [[content |] |] eqn:Hnode;
    [by destruct (Hfree content) | done | done].
Qed.

Lemma write_file_ok (path content : string) (w : world) :
  files w !! abspath env path ≠ Some Directory →
  write_file env path content w
  = (Return tt, {| files := <[ abspath env path := File content ]> (files w);
                   trace := trace w |}).
Proof.
  intros Hfree. unfold write_file, bind, get_world, modify.
  by destruct (files w !! abspath env path) as [[old |] |] eqn:Hnode.
Qed.

(** X20. [checkpoint_new] on a new name, when the suite, the datasource,
    the batch kwargs and the template are there and nothing blocks the
    paths: the file [<checkpoints dir>/<checkpoint>.yml] is written with
    the template whose first batch holds the batch kwargs and the one name
    of the loaded suite, the other batches of the template being kept; the
    directory is made; the command prints, reports success and returns. *)
Theorem checkpoint_new_writes (checkpoint suite_name : string)
    (directory datasource_arg : pyval) (w : world) (context : DataContext)
    (suite : ExpectationSuite) (datasource : Datasource) (kwargs : dict)
    (template : checkpoint_config) (first : batch_entry) (others : list batch_entry) :
  let checkpoint_dir := path_join (root_directory context) (CHECKPOINTS_DIR context) in
  let checkpoint_file := path_join checkpoint_dir (checkpoint +:+ ".yml") in
  let written :=
    {| validation_operator_name := validation_operator_name template;
       batches := {| batch_kwargs := kwargs;
                     expectation_suite_names := [expectation_suite_name suite] |}
                  :: others |} in
  load_data_context_with_error_handling env directory = Return context →
  checkpoint ∉ list_checkpoints context →
  load_expectation_suite env context suite_name "cli.checkpoint.new" = Return suite →
  select_datasource env context datasource_arg = Some datasource →
  get_batch_kwargs env context (datasource_name datasource) = Return kwargs →
  load_checkpoint_yml_template env = Return template →
  batches template = first :: others →
  (∀ content, files w !! abspath env checkpoint_dir ≠ Some (File content)) →
  files w !! abspath env checkpoint_file ≠ Some Directory →
  abspath env checkpoint_file ≠ abspath env checkpoint_dir →
  checkpoint_new env checkpoint suite_name directory datasource_arg w
  = (Return tt,
     {| files := <[ abspath env checkpoint_file := File (yaml_dump env written) ]>
                   (<[ abspath env checkpoint_dir := Directory ]> (files w));
        trace := trace w ++ [Message (checkpoint_added_message checkpoint checkpoint_file);
                             UsageMessage "cli.checkpoint.new" true] |}).
Proof.
  intros checkpoint_dir checkpoint_file written Hcontext Hnew Hsuite Hdatasource
    Hkwargs Htemplate Hbatches Hdir Hfile Hdistinct.
  unfold checkpoint_new.
  unfold bind at 1, from_toolkit at 1, lift at 1. rewrite Hcontext.
  unfold bind at 1, _verify_checkpoint_does_not_exist.
  rewrite bool_decide_eq_false_2 by done. unfold ret at 1.
  unfold bind at 1, from_toolkit at 1, lift at 1. rewrite Hsuite, Hdatasource.
  unfold bind at 1, from_toolkit at 1, lift at 1. rewrite Hkwargs.
  unfold bind at 1, _load_checkpoint_yml_template, from_library, lift.
  rewrite Htemplate.
  unfold bind at 1, fill_template. rewrite Hbatches. unfold ret at 1.
  fold written.
  unfold bind at 1, _write_checkpoint_to_disk.
  fold checkpoint_dir. fold checkpoint_file.
  unfold bind at 1. rewrite makedirs_ok by done.
  unfold bind at 1. rewrite write_file_ok by (simpl; by rewrite lookup_insert_ne).
  unfold ret at 1.
  unfold bind, cli_message, send_usage_message, emit, modify. simpl.
  by rewrite <- (assoc_L (++)).
Qed.

(** X21. [checkpoint_new] without a datasource: when the toolkit selects
    none, the command reports the failure to the usage statistics and ends
    with status 1; it prints nothing itself and writes no file. *)
Theorem checkpoint_new_no_datasource (checkpoint suite_name : string)
    (directory datasource_arg : pyval) (w : world) (context : DataContext)
    (suite : ExpectationSuite) :
  load_data_context_with_error_handling env directory = Return context →
  checkpoint ∉ list_checkpoints context →
  load_expectation_suite env context suite_name "cli.checkpoint.new" = Return suite →
  select_datasource env context datasource_arg = None →
  checkpoint_new env checkpoint suite_name directory datasource_arg w
  = (Raise (SystemExit 1), after w [UsageMessage "cli.checkpoint.new" false]).
Proof.
  intros Hcontext Hnew Hsuite Hdatasource. unfold checkpoint_new.
  unfold bind at 1, from_toolkit at 1, lift at 1. rewrite Hcontext.
  unfold bind at 1, _verify_checkpoint_does_not_exist.
  rewrite bool_decide_eq_false_2 by done. unfold ret at 1.
  unfold bind at 1, from_toolkit at 1, lift at 1. rewrite Hsuite, Hdatasource.
  unfold bind, send_usage_message, sys_exit, raise.
  by rewrite CheckpointTheory.emit_after.
Qed.

(** X22. Once the context is loaded [checkpoint_list] cannot fail: with or
    without checkpoints the process ends with status 0, the file system is
    untouched, and the trace gains one printed item, the list with a line
    per checkpoint in order or the message that there is none, and one
    usage message that reports success. *)
Theorem checkpoint_list_succeeds (directory : pyval) (w : world) (context : DataContext) :
  load_data_context_with_error_handling env directory = Return context →
  exit_status (checkpoint_list env directory w).1 = 0%Z
  ∧ ∃ printed,
      (checkpoint_list env directory w).2
      = after w [printed; UsageMessage "cli.checkpoint.list" true]
      ∧ match list_checkpoints context with
        | [] => printed = Message no_checkpoints_message
        | checkpoints =>
            ∃ intro,
              printed
              = MessageList (map (λ cp, " - <cyan>" +:+ cp +:+ "</cyan>") checkpoints)
                  intro
        end.
Proof.
  intros Hcontext. unfold checkpoint_list.
  unfold bind at 1 3 5, from_toolkit, lift. rewrite Hcontext.
  destruct (list_checkpoints context) as [| cp cps].
  - unfold bind, cli_message, send_usage_message, sys_exit, raise.
    rewrite !CheckpointTheory.emit_after, !CheckpointTheory.after_after. simpl.
    split; [done |]. by eexists.
  - unfold bind, cli_message_list, send_usage_message.
    rewrite !CheckpointTheory.emit_after, !CheckpointTheory.after_after. simpl.
    split; [done |]. eexists. split; [done |]. by eexists.
Qed.



End commands.

End CheckpointMore.

(** ** Examples *)

Module MoreExamples.

Section pandas.
Import Pandas.


Lemma get_batch_unknown_reader_method_witness :
  let bk : dict := <[ "reader_method" := VStr "read_fwf" ]> {[ "path" := VStr "table.txt" ]} in
  get_batch sample_env sample_datasource bk VNone []
  = (Raise (BatchKwargsError "Unable to find reader_method read_fwf in pandas."
              {[ "reader_method" := VStr "read_fwf" ]}), []).
Proof.
  intros bk.
  apply (PandasMore.get_batch_unknown_reader_method sample_env sample_datasource bk
           VNone (VStr "table.txt") "read_fwf" []); reflexivity.
Defined.


Lemma get_batch_csv_gz_witness :
  let bk : dict :=
    <[ "reader_options" := VDict {[ "sep" := VStr "|" ]} ]>
      {[ "path" := VStr "visits.csv.gz" ]} in
  ∃ r kwargs,
    get_batch sample_env sample_datasource bk VNone []
    = (r, [CallReader "read_csv" (InPath (VStr "visits.csv.gz")) kwargs])
    ∧ kwargs !! "compression" = Some (VStr "gzip")
    ∧ kwargs !! "sep" = Some (VStr "|").
Proof.
  intros bk.
  destruct (PandasMore.get_batch_csv_gz sample_env sample_datasource bk VNone "visits")
    as (r & kwargs & Hrun & Hcompression & Hothers).
  - reflexivity.
  - reflexivity.
  - reflexivity.
  - reflexivity.
  - vm_compute. exact I.
  - exists r, kwargs. split; [exact Hrun |]. split.
    + rewrite Hcompression. reflexivity.
    + rewrite (Hothers "sep") by discriminate. reflexivity.
Defined.


Lemma get_batch_carries_witness :
  let bk : dict := {[ "path" := VStr "visits.csv" ]} in
  ∃ b, get_batch sample_env sample_datasource bk (VStr "nightly") []
       = (Return b, [CallReader "read_csv" (InPath (VStr "visits.csv")) ∅])
       ∧ batch_kwargs b = bk ∧ batch_parameters b = VStr "nightly".
Proof.
  intros bk.
  pose (b := {| datasource_name := "pandas"; batch_kwargs := bk; data := VDataFrame 7;
                batch_parameters := VStr "nightly";
                batch_markers :=
                  <[ "pandas_data_fingerprint" := VStr "0f3a" ]>
                    {[ "ge_load_time" := VStr "20200401T120000.000000Z" ]};
                data_context := VNone |}).
  assert (Hrun : get_batch sample_env sample_datasource bk (VStr "nightly") []
                 = (Return b, [CallReader "read_csv" (InPath (VStr "visits.csv")) ∅]))
    by (vm_compute; reflexivity).
  exists b. split; [exact Hrun |].
  destruct (PandasMore.get_batch_carries sample_env sample_datasource bk (VStr "nightly")
              _ _ b Hrun) as (_ & _ & Hbp & _ & _ & _ & Hkw).
  split; [| exact Hbp]. apply Hkw. left. exists (VStr "visits.csv"). reflexivity.
Defined.

Lemma get_batch_s3_import_fails_witness :
  let bk : dict := {[ "s3" := VStr "s3://bucket/visits.csv" ]} in
  get_batch sample_env sample_datasource bk VNone []
  = (Raise (BatchKwargsError "Unable to load boto3 client to read s3 asset." bk), []).
Proof.
  intros bk.
  apply (PandasMore.get_batch_s3_import_fails sample_env sample_datasource bk VNone
           (VStr "s3://bucket/visits.csv")
           (PyExn ["ModuleNotFoundError"; "ImportError"; "Exception"]
              "No module named 'boto3'") []); reflexivity.
Defined.

Lemma get_batch_s3_fetches_before_reader_witness :
  let bk : dict := {[ "s3" := VStr "s3://bucket/key" ]} in
  get_batch sample_env_s3 sample_datasource bk VNone []
  = (Raise (BatchKwargsError "Unable to determine reader method from path: key"
              {[ "path" := VStr "key" ]}),
     [CallBoto3Client ∅; CallGetObject "bucket" "key"]).
Proof.
  intros bk.
  apply (PandasMore.get_batch_s3_fetches_before_reader sample_env_s3 sample_datasource
           bk VNone (VStr "s3://bucket/key") ∅ 1%N 2%N "bucket" "key"); reflexivity.
Defined.

Lemma guess_reader_method_from_path_range_witness :
  ∃ m, guess "read_json" None !! "reader_method" = Some (VStr m)
       ∧ m ∈ ["read_csv"; "read_parquet"; "read_excel"; "read_json"; "read_pickle"].
Proof.
  destruct (PandasMore.guess_reader_method_from_path_range (VStr "events.json")
              (guess "read_json" None)) as (m & Hm & Hin & _).
  - reflexivity.
  - exists m. split; [exact Hm | exact Hin].
Defined.


(** A datasource that holds defaults: a separator, a limit of 100 rows and
    a reader method. *)
Lemma process_batch_parameters_precedence_witness :
  let self := {| name := "pandas"; _data_context := VNone; _boto3_options := VDict ∅;
                 _reader_method := VStr "read_csv";
                 _reader_options := VDict {[ "sep" := VStr "|" ]};
                 _limit := VInt 100 |} in
  let given := VDict (<[ "nrows" := VInt 5 ]> {[ "sep" := VStr "," ]}) in
  ∃ bk,
    process_batch_parameters sample_env self VNone given VNone VNone [] = (Return bk, [])
    ∧ reader_options_of bk !! "sep" = Some (VStr ",")
    ∧ reader_options_of bk !! "nrows" = Some (VInt 100).
Proof.
  intros self given.
  destruct (PandasOptions.process_batch_parameters_precedence sample_env self VNone given
              VNone VNone ∅ true true []) as (bk & Hrun & Hkeys & Hnrows).
  - reflexivity.
  - vm_compute. exact I.
  - right. eexists. reflexivity.
  - right. eexists. reflexivity.
  - reflexivity.
  - reflexivity.
  - exists bk. split; [exact Hrun |]. split.
    + rewrite (Hkeys "sep") by discriminate. reflexivity.
    + rewrite Hnrows. reflexivity.
Defined.

Lemma process_batch_parameters_reader_method_witness :
  let self := {| name := "pandas"; _data_context := VNone; _boto3_options := VDict ∅;
                 _reader_method := VStr "read_csv";
                 _reader_options := VNone;
                 _limit := VNone |} in
  ∃ bk,
    process_batch_parameters sample_env self (VStr "read_json") VNone VNone VNone []
    = (Return bk, [])
    ∧ bk !! "reader_method" = Some (VStr "read_json").
Proof.
  intros self.
  destruct (PandasOptions.process_batch_parameters_reader_method sample_env self
              (VStr "read_json") VNone VNone VNone ∅ false true [])
    as (bk & Hrun & Hmethod & _).
  - reflexivity.
  - vm_compute. exact I.
  - left. reflexivity.
  - left. reflexivity.
  - reflexivity.
  - reflexivity.
  - exists bk. split; [exact Hrun | exact Hmethod].
Defined.

Lemma __init___keeps_witness :
  ∃ self,
    __init__ sample_env "pandas" VNone VNone VNone
      (VDict {[ "endpoint_url" := VStr "http://localhost:9000" ]})
      (VStr "read_csv") (VDict {[ "sep" := VStr "|" ]}) (VInt 100)
      {[ "base_directory" := VStr "/data" ]} []
    = (Return self, [])
    ∧ _limit self = VInt 100
    ∧ _reader_method self = VStr "read_csv"
    ∧ _reader_options self = VNone
    ∧ _boto3_options self = VDict ∅.
Proof.
  destruct (__init__ sample_env "pandas" VNone VNone VNone
              (VDict {[ "endpoint_url" := VStr "http://localhost:9000" ]})
              (VStr "read_csv") (VDict {[ "sep" := VStr "|" ]}) (VInt 100)
              {[ "base_directory" := VStr "/data" ]} []) as [[self | e] w'] eqn:Hinit;
    [| vm_compute in Hinit; discriminate Hinit].
  assert (Hw : w' = []) by (vm_compute in Hinit; injection Hinit as _ <-; reflexivity).
  destruct (PandasOptions.__init___keeps sample_env "pandas" VNone VNone VNone
              (VDict {[ "endpoint_url" := VStr "http://localhost:9000" ]})
              (VStr "read_csv") (VDict {[ "sep" := VStr "|" ]}) (VInt 100)
              {[ "base_directory" := VStr "/data" ]} false self [] w')
    as (Hlimit & Hmethod & Hoptions & Hboto3).
  - left. reflexivity.
  - reflexivity.
  - right. eexists. reflexivity.
  - right. eexists. reflexivity.
  - intros k Hk. apply lookup_singleton_ne. intros <-. revert Hk.
    exact (proj1 (bool_decide_eq_false ("base_directory" ∈ bound_keywords)) eq_refl).
  - intros k Hk. split; apply lookup_singleton_ne; intros <-; revert Hk.
    + exact (proj1 (bool_decide_eq_false ("sep" ∈ super_keywords)) eq_refl).
    + exact (proj1 (bool_decide_eq_false ("endpoint_url" ∈ super_keywords)) eq_refl).
  - exact Hinit.
  - exists self. rewrite Hw. split; [reflexivity |].
    split; [exact Hlimit |]. split; [exact Hmethod |].
    split; [rewrite Hoptions; reflexivity | rewrite Hboto3; reflexivity].
Defined.


Lemma __init___bad_options_witness :
  __init__ sample_env "pandas" VNone VNone VNone VNone VNone (VStr "sep=|") VNone ∅ []
  = (Raise (Propagated (ValueError
       "boto3_options must be a dictionary of key-value pairs to pass to boto3 upon initialization.")),
     []).
Proof.
  apply (PandasOptions.__init___bad_options sample_env "pandas" VNone VNone VNone VNone
           (VStr "sep=|") VNone ∅ false []).
  - reflexivity.
  - right. split; [left; reflexivity |]. split; [discriminate |].
    intros d. discriminate.
Defined.

End pandas.

Section checkpoint.
Import Checkpoint.

Lemma checkpoint_run_propagates_witness :
  let env := sample_env_of sample_config
               (λ suite_name, Return {| expectation_suite_name := suite_name |})
               (λ suite, if String.eqb (expectation_suite_name suite) "users.warning"
                         then Raise bad_value else Return 1%N)
               None true in
  let loaded := after empty_world
                  [ LoadBatch {| expectation_suite_name := "visits.warning" |}
                      {[ "path" := VStr "visits.csv" ]};
                    LoadBatch {| expectation_suite_name := "visits.critical" |}
                      {[ "path" := VStr "visits.csv" ]} ] in
  checkpoint_run env "nightly" VNone empty_world
  = (Raise (Error bad_value),
     after loaded [LoadBatch {| expectation_suite_name := "users.warning" |}
                     {[ "path" := VStr "users.csv" ]}]).
Proof.
  intros env loaded.
  refine (proj1 (CheckpointMore.checkpoint_run_propagates env "nightly" VNone empty_world
           loaded loaded sample_context sample_config
           [ {| batch_kwargs := {[ "path" := VStr "visits.csv" ]};
                expectation_suite_names := ["visits.warning"; "visits.critical"] |} ]
           []
           {| batch_kwargs := {[ "path" := VStr "users.csv" ]};
              expectation_suite_names := ["users.warning"] |}
           [] [] "users.warning" {| expectation_suite_name := "users.warning" |}
           [1%N; 1%N] [1%N; 1%N] bad_value _ _ _ _ _ _ _ _ _));
    reflexivity.
Defined.


Lemma checkpoint_run_RuntimeError_witness :
  let env := sample_env_of sample_config
               (λ suite_name, Return {| expectation_suite_name := suite_name |})
               (λ _, Raise interrupted) None false in
  let suite := {| expectation_suite_name := "visits.warning" |} in
  let kwargs : dict := {[ "path" := VStr "visits.csv" ]} in
  checkpoint_run env "nightly" VNone empty_world
  = (Raise (SystemExit 1),
     after empty_world
       [ LoadBatch suite kwargs;
         Message (load_problem_message env kwargs interrupted
                    (checkpoint_file_of "nightly"));
         UsageMessage "cli.checkpoint.run" false ]).
Proof.
  intros env suite kwargs.
  apply (CheckpointMore.checkpoint_run_RuntimeError env "nightly" VNone empty_world
           empty_world empty_world sample_context sample_config []
           [ {| batch_kwargs := {[ "path" := VStr "users.csv" ]};
                expectation_suite_names := ["users.warning"] |} ]
           {| batch_kwargs := kwargs;
              expectation_suite_names := ["visits.warning"; "visits.critical"] |}
           [] ["visits.critical"] "visits.warning" suite [] [] interrupted);
    reflexivity.
Defined.

Lemma checkpoint_run_no_batches_witness :
  let config := {| validation_operator_name := "action_list_operator"; batches := [] |} in
  let env := sample_env_of config
               (λ suite_name, Return {| expectation_suite_name := suite_name |})
               (λ _, Return 1%N) None true in
  checkpoint_run env "nightly" VNone empty_world
  = (Raise (SystemExit 1),
     after empty_world
       [ RunValidationOperator "action_list_operator" [];
         Message "Validation Failed!";
         UsageMessage "cli.checkpoint.run" true ]).
Proof.
  intros config env.
  apply (CheckpointMore.checkpoint_run_no_batches env "nightly" VNone empty_world
           sample_context config {| success := false |}); reflexivity.
Defined.

Lemma checkpoint_new_writes_witness :
  checkpoint_new sample_env "weekly" "visits.warning" VNone VNone empty_world
  = (Return tt,
     {| files :=
          <[ "/project/great_expectations/checkpoints/weekly.yml"
             := File "action_list_operator" ]>
            (<[ "/project/great_expectations/checkpoints" := Directory ]> ∅);
        trace :=
          [ Message (checkpoint_added_message "weekly"
                       "/project/great_expectations/checkpoints/weekly.yml");
            UsageMessage "cli.checkpoint.new" true ] |}).
Proof.
  apply (CheckpointMore.checkpoint_new_writes sample_env "weekly" "visits.warning"
           VNone VNone empty_world sample_context
           {| expectation_suite_name := "visits.warning" |}
           {| datasource_name := "files" |}
           {[ "path" := VStr "visits.csv" ]}
           {| validation_operator_name := "action_list_operator";
              batches := [ {| batch_kwargs := ∅; expectation_suite_names := [] |} ] |}
           {| batch_kwargs := ∅; expectation_suite_names := [] |} []).
  - reflexivity.
  - intros Hin. apply list_elem_of_singleton in Hin. discriminate Hin.
  - reflexivity.
  - reflexivity.
  - reflexivity.
  - reflexivity.
  - reflexivity.
  - intros content. vm_compute. discriminate.
  - vm_compute. discriminate.
  - vm_compute. discriminate.
Defined.

Lemma checkpoint_new_no_datasource_witness :
  let env := sample_env_of sample_config
               (λ suite_name, Return {| expectation_suite_name := suite_name |})
               (λ _, Return 1%N) None true in
  checkpoint_new env "weekly" "visits.warning" VNone (VStr "warehouse") empty_world
  = (Raise (SystemExit 1), after empty_world [UsageMessage "cli.checkpoint.new" false]).
Proof.
  intros env.
  apply (CheckpointMore.checkpoint_new_no_datasource env "weekly" "visits.warning" VNone
           (VStr "warehouse") empty_world sample_context
           {| expectation_suite_name := "visits.warning" |}).
  - reflexivity.
  - intros Hin. apply list_elem_of_singleton in Hin. discriminate Hin.
  - reflexivity.
  - reflexivity.
Defined.

Lemma checkpoint_list_succeeds_witness :
  exit_status (checkpoint_list sample_env VNone empty_world).1 = 0%Z
  ∧ ∃ intro,
      (checkpoint_list sample_env VNone empty_world).2
      = after empty_world [ MessageList [" - <cyan>nightly</cyan>"] intro;
                            UsageMessage "cli.checkpoint.list" true ].
Proof.
  destruct (CheckpointMore.checkpoint_list_succeeds sample_env VNone empty_world
              sample_context) as (Hstatus & printed & Hworld & intro & ->).
  - reflexivity.
  - split; [exact Hstatus |]. exists intro. exact Hworld.
Defined.


End checkpoint.

End MoreExamples.
